(** * Sales dashboard: filtering and metrics aggregation

    A shallow embedding of the hook [useSalesData]: the record filter
    ([filteredData]), the three-level aggregation ([calculateMetrics]) and
    the derived [summary].  JavaScript numbers are IEEE 754 binary64 values,
    embedded as Rocq's primitive floats; the target table is a finite map
    from branch names to numbers. *)

From Stdlib Require Import ZArith List Bool String Ascii Floats.
From stdpp Require Import base option list gmap strings pretty.
Import ListNotations.
#[local] Open Scope string_scope.

(** ** JavaScript values and numbers *)

Module Js.

(** What a property of a record fetched as JSON can hold at run time;
    [undefined] is a property that is missing. *)
Inductive value : Type :=
| undefined
| null
| boolean (b : bool)
| number (x : float)
| str (s : string).

Definition NaN : float := PrimFloat.nan.

(** [Number(v)].  The conversion of a string is the built-in
    StringToNumber, taken as a parameter. *)
Definition Number (StringToNumber : string → float) (v : value) : float :=
  match v with
  | undefined => NaN
  | null => 0%float
  | boolean b => if b then 1%float else 0%float
  | number x => x
  | str s => StringToNumber s
  end.

(** [v || 0] followed by [Number], the form the monthly report uses. *)
Definition falsy (v : value) : bool :=
  match v with
  | undefined | null => true
  | boolean b => negb b
  | number x => PrimFloat.eqb x 0%float || PrimFloat.is_nan x
  | str s => String.eqb s ""
  end.

Definition or_zero (v : value) : value :=
  if falsy v then number 0%float else v.

(** [l.reduce((sum, d) => sum + f(d), 0)] *)
Definition reduce_sum {A : Type} (f : A → float) (l : list A) : float :=
  fold_left (λ sum d, (sum + f d)%float) l 0%float.

(** [x > 0] *)
Definition gt0 (x : float) : bool := (0 <? x)%float.

(** [x === 0] on numbers: true of both zeros, false of NaN. *)
Definition is_zero (x : float) : bool := (x =? 0)%float.

Definition isNaN (x : float) : bool := PrimFloat.is_nan x.

(** [l.includes(x)] for an array of strings. *)
Definition includes (l : list string) (x : string) : bool :=
  existsb (String.eqb x) l.

End Js.

(** ** Dates

    A JavaScript [Date] is a time value in milliseconds, or the invalid
    date whose time value is NaN. *)

Inductive Date : Type :=
| InvalidDate
| TimeValue (ms : Z).

(** ** The data model *)

(** [date] is [None] when the property is absent (undefined or null). *)
Record SalesRecord : Type := mkSalesRecord {
  date : option string;
  branch_name : string;
  channel_name : string;
  sales_value : Js.value;
  orders_count : Js.value;
  target_value : Js.value
}.

Record DateRange : Type := mkDateRange {
  from : option Date;
  to : option Date
}.

(** [daysOfWeek] holds weekday indices, 0 for Sunday to 6 for Saturday. *)
Record DashboardFilterState : Type := mkFilters {
  dateRange : option DateRange;
  selectedMonth : option string;
  branches : list string;
  channels : list string;
  daysOfWeek : list Z
}.

Module ChannelMetrics.
Record t : Type := mk {
  channelName : string;
  sales : float;
  orders : float;
  target : float;
  achievementPercentage : float;
  aov : float
}.
End ChannelMetrics.

Module BranchMetrics.
Record t : Type := mk {
  branchName : string;
  totalSales : float;
  totalOrders : float;
  totalTarget : float;
  achievementPercentage : float;
  aov : float;
  channels : list ChannelMetrics.t
}.
End BranchMetrics.

Module DashboardSummary.
Record t : Type := mk {
  totalSales : float;
  totalOrders : float;
  totalTarget : float;
  overallAchievement : float;
  overallAov : float;
  branchMetrics : list BranchMetrics.t
}.
End DashboardSummary.

(** The initial filter state of the hook: nothing selected. *)
Definition noFilters : DashboardFilterState :=
  mkFilters None None [] [] [].

(** ** The hook *)

(** The hook's imports: the fixed enumerations exported by the types
    module, the built-in conversion of a string to a number, and the date
    library's [parseISO], [isWithinInterval date {start, end}] and [getDay],
    whose result is [None] when it is NaN. *)
Class Host : Type := {
  BRANCHES : list string;
  CHANNELS : list string;
  StringToNumber : string → float;
  parseISO : string → Date;
  isWithinInterval : Date → Date → Date → bool;
  getDay : Date → option Z
}.

Section UseSalesData.

Context {host : Host}.

Definition Number : Js.value → float := Js.Number StringToNumber.

(** *** calculateMetrics *)

(** The callback of [CHANNELS.map] for the records of one branch. *)
Definition channelMetrics (branchData : list SalesRecord) (channel : string)
  : ChannelMetrics.t :=
  let channelData :=
    List.filter (λ d, String.eqb (channel_name d) channel) branchData in
  let sales := Js.reduce_sum (λ d, Number (sales_value d)) channelData in
  let orders := Js.reduce_sum (λ d, Number (orders_count d)) channelData in
  let target := Js.reduce_sum (λ d, Number (target_value d)) channelData in
  ChannelMetrics.mk channel sales orders target
    (if Js.gt0 target then (sales / target * 100)%float else 0%float)
    (if Js.gt0 orders then (sales / orders)%float else 0%float).

(** The callback of [BRANCHES.map]. *)
Definition branchMetric (data : list SalesRecord)
    (targetsMap : gmap string float) (branch : string) : BranchMetrics.t :=
  let branchData :=
    List.filter (λ d, String.eqb (branch_name d) branch) data in
  let channels := map (channelMetrics branchData) CHANNELS in
  let totalSales := Js.reduce_sum ChannelMetrics.sales channels in
  let totalOrders := Js.reduce_sum ChannelMetrics.orders channels in
  let totalTarget :=
    match targetsMap !! branch with
    | Some override => override
    | None => Js.reduce_sum ChannelMetrics.target channels
    end in
  BranchMetrics.mk branch totalSales totalOrders totalTarget
    (if Js.gt0 totalTarget
     then (totalSales / totalTarget * 100)%float else 0%float)
    (if Js.gt0 totalOrders then (totalSales / totalOrders)%float else 0%float)
    channels.

Definition calculateMetrics (data : list SalesRecord)
    (targetsMap : gmap string float) : DashboardSummary.t :=
  let branchMetrics := map (branchMetric data targetsMap) BRANCHES in
  let totalSales := Js.reduce_sum BranchMetrics.totalSales branchMetrics in
  let totalOrders := Js.reduce_sum BranchMetrics.totalOrders branchMetrics in
  let totalTarget := Js.reduce_sum BranchMetrics.totalTarget branchMetrics in
  DashboardSummary.mk totalSales totalOrders totalTarget
    (if Js.gt0 totalTarget
     then (totalSales / totalTarget * 100)%float else 0%float)
    (if Js.gt0 totalOrders then (totalSales / totalOrders)%float else 0%float)
    branchMetrics.

(** *** filteredData *)

(** The date range test: [true] when the record is rejected. *)
Definition outsideDateRange (filters : DashboardFilterState) (d : string)
  : bool :=
  match dateRange filters with
  | Some range =>
      match from range with
      | Some start =>
          let end_ := match to range with Some e => e | None => start end in
          negb (isWithinInterval (parseISO d) start end_)
      | None => false
      end
  | None => false
  end.

Definition outsideMonth (filters : DashboardFilterState) (d : string)
  : bool :=
  match selectedMonth filters with
  | Some month =>
      if String.eqb month "" then false else negb (String.prefix month d)
  | None => false
  end.

Definition outsideBranches (filters : DashboardFilterState)
    (record : SalesRecord) : bool :=
  (0 <? length (branches filters))%nat
  && negb (Js.includes (branches filters) (branch_name record)).

Definition outsideChannels (filters : DashboardFilterState)
    (record : SalesRecord) : bool :=
  (0 <? length (channels filters))%nat
  && negb (Js.includes (channels filters) (channel_name record)).

Definition outsideDaysOfWeek (filters : DashboardFilterState) (d : string)
  : bool :=
  if (0 <? length (daysOfWeek filters))%nat then
    match getDay (parseISO d) with
    | Some day => negb (existsb (Z.eqb day) (daysOfWeek filters))
    | None => true
    end
  else false.

(** The callback of [salesData.filter].  The elements are record objects,
    so of the first test, [!record || !record.date], the date part decides:
    a date that is absent or the empty string is falsy. *)
Definition keepRecord (filters : DashboardFilterState) (record : SalesRecord)
  : bool :=
  match date record with
  | None => false
  | Some d =>
      if String.eqb d "" then false
      else if outsideDateRange filters d then false
      else if outsideMonth filters d then false
      else if outsideBranches filters record then false
      else if outsideChannels filters record then false
      else if outsideDaysOfWeek filters d then false
      else true
  end.

Definition filteredData (salesData : list SalesRecord)
    (filters : DashboardFilterState) : list SalesRecord :=
  List.filter (keepRecord filters) salesData.

(** *** summary *)

Definition summary (salesData : list SalesRecord)
    (filters : DashboardFilterState) (targetsMap : gmap string float)
  : option DashboardSummary.t :=
  if (length salesData =? 0)%nat then None
  else Some (calculateMetrics (filteredData salesData filters) targetsMap).

End UseSalesData.

(** ** A sample store

    Two branches and two channels, and a reference version of the date
    functions for [YYYY-MM-DD] strings with UTC as the local zone.  The
    examples, witnesses and counterexamples below run the hook on it. *)

Module Sample.

Definition BRANCHES : list string := ["A"; "B"].
Definition CHANNELS : list string := ["X"; "Y"].

Definition digit (c : ascii) : option Z :=
  let n := (Z.of_nat (nat_of_ascii c) - 48)%Z in
  if (0 <=? n)%Z && (n <=? 9)%Z then Some n else None.

Fixpoint digits (s : string) (acc : Z) : option Z :=
  match s with
  | EmptyString => Some acc
  | String c s' =>
      match digit c with
      | Some d => digits s' (acc * 10 + d)%Z
      | None => None
      end
  end.

(** Decimal integer literals of at most fifteen digits, which binary64
    holds exactly; the empty string is 0 and anything else is NaN here. *)
Definition StringToNumber (s : string) : float :=
  if (String.length s <=? 15)%nat then
    match digits s 0 with
    | Some n => PrimFloat.of_uint63 (Uint63.of_Z n)
    | None => Js.NaN
    end
  else Js.NaN.

Definition isLeap (y : Z) : bool :=
  ((y mod 4 =? 0) && negb (y mod 100 =? 0) || (y mod 400 =? 0))%Z.

Definition daysInMonth (y m : Z) : Z :=
  if (m =? 2)%Z then (if isLeap y then 29 else 28)%Z
  else if ((m =? 4) || (m =? 6) || (m =? 9) || (m =? 11))%Z then 30%Z
  else 31%Z.

(** Days from 1970-01-01 to the civil date [y]-[m]-[d]. *)
Definition daysFromCivil (y m d : Z) : Z :=
  let y' := (if (m <=? 2)%Z then y - 1 else y)%Z in
  let era := (y' / 400)%Z in
  let yoe := (y' - era * 400)%Z in
  let mp := (if (2 <? m)%Z then m - 3 else m + 9)%Z in
  let doy := ((153 * mp + 2) / 5 + d - 1)%Z in
  let doe := (yoe * 365 + yoe / 4 - yoe / 100 + doy)%Z in
  (era * 146097 + doe - 719468)%Z.

Definition msPerDay : Z := 86400000.

Definition parseISO (s : string) : Date :=
  if (String.length s =? 10)%nat
     && String.eqb (substring 4 1 s) "-"
     && String.eqb (substring 7 1 s) "-"
  then
    match digits (substring 0 4 s) 0,
          digits (substring 5 2 s) 0,
          digits (substring 8 2 s) 0 with
    | Some y, Some m, Some d =>
        if ((1 <=? m) && (m <=? 12) && (1 <=? d) && (d <=? daysInMonth y m))%Z
        then TimeValue (msPerDay * daysFromCivil y m d)
        else InvalidDate
    | _, _, _ => InvalidDate
    end
  else InvalidDate.

Definition isWithinInterval (d start end_ : Date) : bool :=
  match d, start, end_ with
  | TimeValue t, TimeValue s, TimeValue e =>
      ((Z.min s e <=? t) && (t <=? Z.max s e))%Z
  | _, _, _ => false
  end.

(** 1970-01-01 was a Thursday. *)
Definition getDay (d : Date) : option Z :=
  match d with
  | TimeValue t => Some ((t / msPerDay + 4) mod 7)%Z
  | InvalidDate => None
  end.

Definition host : Host :=
  Build_Host BRANCHES CHANNELS StringToNumber parseISO isWithinInterval getDay.

Definition branchMetric := @branchMetric host.
Definition calculateMetrics := @calculateMetrics host.
Definition filteredData := @filteredData host.
Definition summary := @summary host.

Definition num (x : float) : Js.value := Js.number x.

(** The two records of the specification's scenario. *)
Definition r1 : SalesRecord :=
  mkSalesRecord (Some "2024-03-01") "A" "X" (num 100) (num 2) (num 50).
Definition r2 : SalesRecord :=
  mkSalesRecord (Some "2024-03-02") "A" "Y" (num 50) (num 1) (num 0).

(** [r1] fetched without its [sales_value]. *)
Definition r1_missing_sales : SalesRecord :=
  mkSalesRecord (Some "2024-03-01") "A" "X" Js.undefined (num 2) (num 50).

(** A record whose date is not a date. *)
Definition r_garbage : SalesRecord :=
  mkSalesRecord (Some "garbage") "A" "X" (num 100) (num 2) (num 50).

(** A record whose date has the month prefix but no day. *)
Definition r_badday : SalesRecord :=
  mkSalesRecord (Some "2024-03-xx") "A" "X" (num 100) (num 2) (num 50).

Definition r_nodate : SalesRecord :=
  mkSalesRecord None "A" "X" (num 100) (num 2) (num 50).

Definition overrideA : gmap string float := <["A" := 1000%float]> ∅.

Definition onlyBranchA : DashboardFilterState :=
  mkFilters None None ["A"] [] [].
Definition onlyBranchB : DashboardFilterState :=
  mkFilters None None ["B"] [] [].
Definition fridays : DashboardFilterState :=
  mkFilters None None [] [] [5%Z].
Definition march2024 : DashboardFilterState :=
  mkFilters None (Some "2024-03") [] [] [].

End Sample.

(** ** Specification-side definitions *)

(** The guarded ratios as the specification words them. *)
Definition achievement_spec (sales target : float) : float :=
  if Js.gt0 target then (sales / target * 100)%float else 0%float.

Definition aov_spec (sales orders : float) : float :=
  if Js.gt0 orders then (sales / orders)%float else 0%float.

(** One level of the output obeys the zero guards: its two ratios are the
    guarded ones, and each is 0 when its divisor compares equal to 0. *)
Definition zeroGuarded (sales orders target achievement aov : float) : Prop :=
  achievement = achievement_spec sales target
  ∧ aov = aov_spec sales orders
  ∧ (Js.is_zero target = true → achievement = 0%float)
  ∧ (Js.is_zero orders = true → aov = 0%float).

(** The monthly report's coercion of a field: [Number(v || 0)]. *)
Definition monthlyNumber {host : Host} (v : Js.value) : float :=
  Number (Js.or_zero v).

(** A channel entry with nothing in it. *)
Definition zeroedChannel (c : ChannelMetrics.t) : Prop :=
  ChannelMetrics.sales c = 0%float
  ∧ ChannelMetrics.orders c = 0%float
  ∧ ChannelMetrics.target c = 0%float
  ∧ ChannelMetrics.achievementPercentage c = 0%float
  ∧ ChannelMetrics.aov c = 0%float.

(** A branch entry with no sales, no orders and both ratios 0, every
    channel listed and zeroed, whose target is its override when it has one
    and 0 otherwise. *)
Definition zeroedBranch {host : Host} (targetsMap : gmap string float)
    (b : BranchMetrics.t) : Prop :=
  BranchMetrics.totalSales b = 0%float
  ∧ BranchMetrics.totalOrders b = 0%float
  ∧ BranchMetrics.totalTarget b
    = default 0%float (targetsMap !! BranchMetrics.branchName b)
  ∧ BranchMetrics.achievementPercentage b = 0%float
  ∧ BranchMetrics.aov b = 0%float
  ∧ map ChannelMetrics.channelName (BranchMetrics.channels b) = CHANNELS
  ∧ Forall zeroedChannel (BranchMetrics.channels b).

(** What [calculateMetrics] reads of a record. *)
Definition recordView {host : Host} (d : SalesRecord)
  : string * string * (float * float * float) :=
  (branch_name d, channel_name d,
   (Number (sales_value d), Number (orders_count d), Number (target_value d))).

(** A filter state cut down to one of its five fields. *)
Definition onlyDateRange (f : DashboardFilterState) : DashboardFilterState :=
  mkFilters (dateRange f) None [] [] [].
Definition onlyMonth (f : DashboardFilterState) : DashboardFilterState :=
  mkFilters None (selectedMonth f) [] [] [].
Definition onlyBranches (f : DashboardFilterState) : DashboardFilterState :=
  mkFilters None None (branches f) [] [].
Definition onlyChannels (f : DashboardFilterState) : DashboardFilterState :=
  mkFilters None None [] (channels f) [].
Definition onlyDaysOfWeek (f : DashboardFilterState) : DashboardFilterState :=
  mkFilters None None [] [] (daysOfWeek f).

(** The filter callback when a single test [outside] is switched on. *)
Definition keepWhen (record : SalesRecord) (outside : string → bool) : bool :=
  match date record with
  | None => false
  | Some d => if String.eqb d "" then false else negb (outside d)
  end.

(** The date range filter is switched on. *)
Definition dateRangeActive (f : DashboardFilterState) : Prop :=
  ∃ range start, dateRange f = Some range ∧ from range = Some start.

(** The record has no usable [date]: absent, or the empty string. *)
Definition dateMissing (record : SalesRecord) : Prop :=
  date record = None ∨ date record = Some "".

(** ** The rest of the hook and its callers *)

(** *** The target overrides read from the store *)

Module BranchTarget.
Record t : Type := mk {
  branch_name : string;
  month : string;
  target_value : float
}.
End BranchTarget.

(** The callback of [getTargets(...).then] in the hook: every row is
    assigned into a fresh object, [map[t.branch_name] = t.target_value], and
    the object becomes [targetsMap].  Assigning a number to the key
    [__proto__] of an object creates no property. *)
Definition targetsMapOf (targets : list BranchTarget.t) : gmap string float :=
  fold_left
    (λ map t,
       if String.eqb (BranchTarget.branch_name t) "__proto__" then map
       else <[BranchTarget.branch_name t := BranchTarget.target_value t]> map)
    targets ∅.

(** *** The branch page *)

Module BranchDetail.

(** [summary?.branchMetrics.find(b => b.branchName === branchName)] *)
Definition branchData (summary : option DashboardSummary.t)
    (branchName : string) : option BranchMetrics.t :=
  match summary with
  | Some s =>
      List.find (λ b, String.eqb (BranchMetrics.branchName b) branchName)
        (DashboardSummary.branchMetrics s)
  | None => None
  end.

(** The page navigates back to the dashboard: there is no branch name in
    the route, or no entry was found and the hook is not loading. *)
Definition redirects (branchName : option string)
    (summary : option DashboardSummary.t) (isLoading : bool) : bool :=
  match branchName with
  | None => true
  | Some name =>
      if String.eqb name "" then true
      else
        match branchData summary name with
        | Some _ => false
        | None => negb isLoading
        end
  end.

End BranchDetail.

(** *** The dashboard page *)

(** [handleMonthSelect]: [setFilters({ ...filters, selectedMonth: month })] *)
Definition handleMonthSelect (filters : DashboardFilterState) (month : string)
  : DashboardFilterState :=
  mkFilters (dateRange filters) (Some month) (branches filters)
    (channels filters) (daysOfWeek filters).

(** *** The monthly report *)

Module MonthlyReports.

(** One entry of [monthsMap]. *)
Record entry : Type := mkEntry {
  sales : float;
  orders : float;
  target : float;
  records : list SalesRecord
}.

(** The key under which a record is counted: the first seven characters of
    its date, when the date is there and has at least seven. *)
Definition monthKey (record : SalesRecord) : option string :=
  match date record with
  | None => None
  | Some d =>
      if String.eqb d "" then None
      else
        let monthKey := substring 0 7 d in
        if (String.length monthKey <? 7)%nat then None else Some monthKey
  end.

Section Loop.

Context {host : Host}.

(** The callback of [salesData.forEach].  [None] is a thrown TypeError: the
    key [valueOf] finds the method every object inherits, so no entry is
    created and the [records.push] on that method fails. *)
Definition addRecord (monthsMap : gmap string entry) (record : SalesRecord)
  : option (gmap string entry) :=
  match monthKey record with
  | None => Some monthsMap
  | Some key =>
      if String.eqb key "valueOf" then None
      else
        let e := default (mkEntry 0 0 0 []) (monthsMap !! key) in
        Some (<[key :=
                  mkEntry
                    (sales e + monthlyNumber (sales_value record))
                    (orders e + monthlyNumber (orders_count record))
                    (target e + monthlyNumber (target_value record))
                    (records e ++ [record])%list]> monthsMap)
  end.

(** [monthsMap] after the loop over [salesData]. *)
Definition monthsMap (salesData : list SalesRecord)
  : option (gmap string entry) :=
  fold_left
    (λ acc record,
       match acc with
       | Some m => addRecord m record
       | None => None
       end)
    salesData (Some ∅).

End Loop.

(** The [achievement] of a month's card. *)
Definition achievement (e : entry) : float :=
  if Js.gt0 (target e) then (sales e / target e * 100)%float else 0%float.

End MonthlyReports.

(** *** The administrator test *)

Module IsAdmin.

(** [toLowerCase] on a string of one-byte characters: the letters A to Z
    move to a to z, every other character stays (no character outside A to
    Z lower-cases to a character of the administrator's address). *)
Definition lowerAscii (c : ascii) : ascii :=
  let n := nat_of_ascii c in
  if (65 <=? n)%nat && (n <=? 90)%nat then ascii_of_nat (n + 32) else c.

Fixpoint toLowerCase (s : string) : string :=
  match s with
  | EmptyString => EmptyString
  | String c s' => String (lowerAscii c) (toLowerCase s')
  end.

Definition isAdmin (userEmail : option string) : bool :=
  match userEmail with
  | None => false
  | Some email =>
      if String.eqb email "" then false
      else String.eqb (toLowerCase email) "admin@cstore.com"
  end.

End IsAdmin.

(** *** The targets hook *)

Module UseTargets.

(** [s.padStart(targetLength, pad)] for a one-character [pad]. *)
Definition padStart (targetLength : nat) (pad : ascii) (s : string) : string :=
  string_of_list_ascii (repeat pad (targetLength - String.length s)) +:+ s.

(** [getCurrentMonth], from the full year and the month index (0 to 11)
    that [new Date()] reports; [pretty] is the decimal form of an integer,
    as [String(n)] and template literals give it. *)
Definition getCurrentMonth (fullYear monthIndex : Z) : string :=
  pretty fullYear +:+ "-" +:+ padStart 2 "0" (pretty (monthIndex + 1)%Z).

(** The rows [initializeDefaultTargets] hands to [updateTargets] and then to
    the upsert: a target of 0 for every enumerated branch, for the month. *)
Definition defaultTargets {host : Host} : list (string * float) :=
  map (λ branch, (branch, 0%float)) BRANCHES.

Definition upsertData (targets : list (string * float)) (targetMonth : string)
  : list BranchTarget.t :=
  map (λ t, BranchTarget.mk t.1 targetMonth t.2) targets.

End UseTargets.

(** *** Fetching and uploading *)

Module Hook.

(** What a failed call throws or returns as its error: an [Error] instance,
    another object with optional [message] and [details], or a string. *)
Inductive Thrown : Type :=
| ThrownError (message : string) (details : option string)
| ThrownObject (message details : option string)
| ThrownString (s : string).

(** What the page can observe of a call of the hook, in order: the requests
    sent to the store and the toasts shown.  [DeleteAll] is the delete of
    every row whose id is not the all-zero id, [Select] the select of every
    row ordered by date; the console output is left out. *)
Inductive Event : Type :=
| GetSession
| DeleteAll
| Insert (chunk : list SalesRecord)
| Select
| Toast (title description : string) (destructive : bool).

(** The state the hook keeps about the records. *)
Record State : Type := mkState {
  salesData : list SalesRecord;
  isLoading : bool;
  error : option string
}.

(** The answer to the select: rows (or null), or an error. *)
Inductive FetchResponse : Type :=
| FetchRows (data : option (list SalesRecord))
| FetchError (err : Thrown).

(** [err instanceof Error ? err.message : 'Failed to fetch data'] *)
Definition fetchErrorMessage (err : Thrown) : string :=
  match err with
  | ThrownError message _ => message
  | _ => "Failed to fetch data"
  end.

(** [fetchData] up to its await: loading, error cleared. *)
Definition fetchStart (st : State) : State :=
  mkState (salesData st) true None.

(** [fetchData] from the answer on. *)
Definition fetchEnd (response : FetchResponse) (st : State)
  : State * list Event :=
  match response with
  | FetchRows data => (mkState (default [] data) false (error st), [])
  | FetchError err =>
      (mkState (salesData st) false (Some (fetchErrorMessage err)),
       [Toast "Error" (fetchErrorMessage err) true])
  end.

Definition fetchData (response : FetchResponse) (st : State)
  : State * list Event :=
  let '(st', toasts) := fetchEnd response (fetchStart st) in
  (st', Select :: toasts).

(** The answers of the store during one upload; [insertError i] is the
    answer to the insert of the chunk that starts at index [i]. *)
Record Backend : Type := mkBackend {
  sessionResult : Thrown + bool;
  deleteError : option Thrown;
  insertError : nat → option Thrown;
  refetch : FetchResponse
}.

Definition CHUNK_SIZE : nat := 500.

(** A string is truthy when it is not empty. *)
Definition truthy (s : option string) : option string :=
  match s with
  | Some s' => if String.eqb s' "" then None else Some s'
  | None => None
  end.

(** [err?.message || err?.details ||
     (typeof err === 'string' ? err : 'Failed to upload data')] *)
Definition uploadErrorMessage (err : Thrown) : string :=
  match err with
  | ThrownString s => s
  | ThrownError message details =>
      match truthy (Some message), truthy details with
      | Some m, _ => m
      | None, Some d => d
      | None, None => "Failed to upload data"
      end
  | ThrownObject message details =>
      match truthy message, truthy details with
      | Some m, _ => m
      | None, Some d => d
      | None, None => "Failed to upload data"
      end
  end.

(** The loop [for (let i = 0; i < records.length; i += CHUNK_SIZE)], from
    index [i]: the chunks sent, and the error that stopped it if one did.
    [fuel] bounds the number of rounds. *)
Fixpoint insertChunks (fuel : nat) (insertError : nat → option Thrown)
    (records : list SalesRecord) (i : nat)
  : list (list SalesRecord) * option Thrown :=
  match fuel with
  | O => ([], None)
  | S fuel' =>
      if (i <? length records)%nat then
        let chunk := take CHUNK_SIZE (drop i records) in
        match insertError i with
        | Some err => ([chunk], Some err)
        | None =>
            let '(chunks, stopped) :=
              insertChunks fuel' insertError records (i + CHUNK_SIZE) in
            (chunk :: chunks, stopped)
        end
      else ([], None)
  end.

(** The catch block of [uploadData]. *)
Definition uploadFailed (events : list Event) (err : Thrown) (st : State)
  : list Event * State * bool :=
  ((events ++ [Toast "Upload Error" (uploadErrorMessage err) true])%list,
   st, false).

Definition uploadData (backend : Backend) (records : list SalesRecord)
    (st : State) : list Event * State * bool :=
  match sessionResult backend with
  | inl err => uploadFailed [GetSession] err st
  | inr false =>
      uploadFailed [GetSession]
        (ThrownError "You must be logged in to upload data" None) st
  | inr true =>
      match deleteError backend with
      | Some err => uploadFailed [GetSession; DeleteAll] err st
      | None =>
          let '(chunks, stopped) :=
            insertChunks (length records) (insertError backend) records 0 in
          let sent := ([GetSession; DeleteAll] ++ map Insert chunks)%list in
          match stopped with
          | Some err => uploadFailed sent err st
          | None =>
              let '(st', fetched) := fetchData (refetch backend) st in
              ((sent ++ fetched
                  ++ [Toast "Success"
                        ("Uploaded " +:+ pretty (length records)
                         +:+ " records successfully") false])%list,
               st', true)
          end
      end
  end.

End Hook.

(** *** Specification-side definitions for the rest *)

(** The record belongs to an enumerated branch and an enumerated channel. *)
Definition enumerated {host : Host} (d : SalesRecord) : bool :=
  Js.includes BRANCHES (branch_name d) && Js.includes CHANNELS (channel_name d).

(** The record is counted under the month [key] by the monthly report. *)
Definition inMonth (key : string) (record : SalesRecord) : bool :=
  match MonthlyReports.monthKey record with
  | Some k => String.eqb k key
  | None => false
  end.

(** The entry the monthly report should hold for [key]: none when no record
    is counted under it, else the records counted under it, in their order,
    and the sums of their coerced fields. *)
Definition entryOf {host : Host} (key : string) (salesData : list SalesRecord)
  : option MonthlyReports.entry :=
  match List.filter (inMonth key) salesData with
  | [] => None
  | rs =>
      Some (MonthlyReports.mkEntry
              (Js.reduce_sum (λ r, monthlyNumber (sales_value r)) rs)
              (Js.reduce_sum (λ r, monthlyNumber (orders_count r)) rs)
              (Js.reduce_sum (λ r, monthlyNumber (target_value r)) rs)
              rs)
  end.

(** The chunks the upload sent were all answered without an error. *)
Definition insertsSucceed (insertError : nat → option Hook.Thrown) : Prop :=
  ∀ i, insertError i = None.

(** The records an upload sent to the store, in the order of the inserts. *)
Definition sentRecords (events : list Hook.Event) : list SalesRecord :=
  flat_map (λ ev, match ev with Hook.Insert chunk => chunk | _ => [] end)
    events.

(** The sizes of the chunks an upload sent. *)
Definition sentSizes (events : list Hook.Event) : list nat :=
  flat_map
    (λ ev, match ev with Hook.Insert chunk => [length chunk] | _ => [] end)
    events.

(** The state after [fetchData] ran once for each answer, in order. *)
Definition afterFetches (responses : list Hook.FetchResponse)
    (st : Hook.State) : Hook.State :=
  fold_left (λ st' response, (Hook.fetchData response st').1) responses st.

(** The rows of the last answer that was not an error. *)
Definition lastRows (responses : list Hook.FetchResponse)
  : option (list SalesRecord) :=
  last (flat_map
          (λ response,
             match response with
             | Hook.FetchRows data => [default [] data]
             | Hook.FetchError _ => []
             end)
          responses).

(** The string is a four-digit year, a hyphen and a two-digit month, and
    reads back as [fullYear] and the month after [monthIndex]. *)
Definition readsAsMonth (s : string) (fullYear monthIndex : Z) : bool :=
  (String.length s =? 7)%nat
  && String.eqb (substring 4 1 s) "-"
  && match Sample.digits (substring 0 4 s) 0,
           Sample.digits (substring 5 2 s) 0 with
     | Some y, Some m => (y =? fullYear)%Z && (m =? monthIndex + 1)%Z
     | _, _ => false
     end.

(** A record of branch, channel and numbers whatever, dated [d]. *)
Definition datedRecord (d : string) (like : SalesRecord) : SalesRecord :=
  mkSalesRecord (Some d) (branch_name like) (channel_name like)
    (sales_value like) (orders_count like) (target_value like).

(** The record has a date that is not empty. *)
Definition hasDate (record : SalesRecord) : bool :=
  match date record with
  | Some d => negb (String.eqb d "")
  | None => false
  end.

(** No field of the filter state is switched on. *)
Definition inactive (filters : DashboardFilterState) : bool :=
  match dateRange filters with
  | Some range => match from range with Some _ => false | None => true end
  | None => true
  end
  && match selectedMonth filters with
     | Some month => String.eqb month ""
     | None => true
     end
  && (length (branches filters) =? 0)%nat
  && (length (channels filters) =? 0)%nat
  && (length (daysOfWeek filters) =? 0)%nat.

(** *** More sample data *)

Module Demo.

Definition onlyChannelX : DashboardFilterState :=
  mkFilters None None [] ["X"] [].

Definition zeroA : gmap string float := <["A" := 0%float]> ∅.

(** A store that answers every request of an upload without an error and
    then returns the first sample record. *)
Definition backendOk : Hook.Backend :=
  Hook.mkBackend (inr true) None (λ _, None)
    (Hook.FetchRows (Some [Sample.r1])).

Definition st0 : Hook.State := Hook.mkState [] false None.

Definition months : option (gmap string MonthlyReports.entry) :=
  MonthlyReports.monthsMap (host := Sample.host)
    [Sample.r1; Sample.r_nodate; Sample.r2].

End Demo.

(** ** Numbers *)

Lemma add_zero_zero : (0 + 0)%float = 0%float.
Proof. reflexivity. Qed.

Lemma gt0_zero : Js.gt0 0%float = false.
Proof. reflexivity. Qed.

Lemma gt0_NaN : Js.gt0 Js.NaN = false.
Proof. reflexivity. Qed.

(** A number that compares equal to 0 is not greater than 0. *)
Lemma is_zero_not_gt0 (x : float) : Js.is_zero x = true → Js.gt0 x = false.
Proof.
  unfold Js.is_zero, Js.gt0.
  rewrite FloatAxioms.eqb_spec, FloatAxioms.ltb_spec.
  change (Prim2SF 0%float) with (S754_zero false).
  destruct (Prim2SF x) as [s| | |s m e]; try reflexivity; try discriminate.
  all: unfold SFeqb, SFltb; simpl; destruct s; discriminate.
Qed.

(** So a divisor that passed the guard is not a zero. *)
Lemma gt0_not_zero (x : float) : Js.gt0 x = true → Js.is_zero x = false.
Proof.
  intros Hgt. destruct (Js.is_zero x) eqn:Hz; [|reflexivity].
  apply is_zero_not_gt0 in Hz. congruence.
Qed.

Lemma gt0_not_NaN (x : float) : Js.gt0 x = true → Js.isNaN x = false.
Proof.
  unfold Js.gt0, Js.isNaN, PrimFloat.is_nan.
  rewrite FloatAxioms.ltb_spec, FloatAxioms.eqb_spec.
  change (Prim2SF 0%float) with (S754_zero false).
  destruct (Prim2SF x) as [s| | |s m e]; try reflexivity; try discriminate.
  all: unfold SFeqb, SFltb; simpl; destruct s; simpl; intros H;
    try discriminate H; try reflexivity.
  rewrite Z.compare_refl, Pos.compare_cont_refl. reflexivity.
Qed.

(** Nothing sold against a target that passed the guard is 0 percent. *)
Lemma zero_ratio (x : float) :
  Js.gt0 x = true → (0 / x * 100)%float = 0%float.
Proof.
  intros Hgt. assert (Hdiv : (0 / x)%float = 0%float).
  { apply Prim2SF_inj. rewrite div_spec. revert Hgt.
    unfold Js.gt0. rewrite FloatAxioms.ltb_spec.
    change (Prim2SF 0%float) with (S754_zero false).
    destruct (Prim2SF x) as [s|s| |s m e]; simpl; try discriminate;
      destruct s; try discriminate; reflexivity. }
  rewrite Hdiv. reflexivity.
Qed.

(** NaN absorbs addition on either side. *)
Lemma add_NaN_r (x : float) : (x + Js.NaN)%float = Js.NaN.
Proof.
  apply Prim2SF_inj. rewrite add_spec.
  change (Prim2SF Js.NaN) with S754_nan.
  destruct (Prim2SF x); reflexivity.
Qed.

Lemma add_NaN_l (x : float) : (Js.NaN + x)%float = Js.NaN.
Proof.
  apply Prim2SF_inj. rewrite add_spec.
  change (Prim2SF Js.NaN) with S754_nan. reflexivity.
Qed.

(** ** Sums *)

Lemma reduce_sum_nil {A : Type} (f : A → float) :
  Js.reduce_sum f [] = 0%float.
Proof. reflexivity. Qed.

Lemma reduce_sum_zero {A : Type} (f : A → float) (l : list A) :
  Forall (λ x, f x = 0%float) l → Js.reduce_sum f l = 0%float.
Proof.
  unfold Js.reduce_sum.
  induction 1 as [|x l Hx _ IH]; simpl; [reflexivity|].
  rewrite Hx, add_zero_zero. exact IH.
Qed.

Lemma fold_sum_map {A B : Type} (f : B → float) (g : A → B) (l : list A)
    acc :
  fold_left (λ sum d, (sum + f d)%float) (map g l) acc
  = fold_left (λ sum d, (sum + f (g d))%float) l acc.
Proof.
  revert acc. induction l as [|x l IH]; intros acc; simpl; [reflexivity|].
  apply IH.
Qed.

Lemma reduce_sum_map {A B : Type} (f : B → float) (g : A → B) (l : list A) :
  Js.reduce_sum f (map g l) = Js.reduce_sum (λ x, f (g x)) l.
Proof. unfold Js.reduce_sum. exact (fold_sum_map f g l 0%float). Qed.

Lemma fold_sum_ext {A : Type} (f g : A → float) (l : list A) acc :
  Forall (λ x, f x = g x) l →
  fold_left (λ sum d, (sum + f d)%float) l acc
  = fold_left (λ sum d, (sum + g d)%float) l acc.
Proof.
  intros H. revert acc.
  induction H as [|x l Hx _ IH]; intros acc; simpl; [reflexivity|].
  rewrite Hx. apply IH.
Qed.

Lemma reduce_sum_ext {A : Type} (f g : A → float) (l : list A) :
  Forall (λ x, f x = g x) l → Js.reduce_sum f l = Js.reduce_sum g l.
Proof.
  intros H. unfold Js.reduce_sum. exact (fold_sum_ext f g l 0%float H).
Qed.

(** ** Lists *)

Lemma filter_filter_andb {A : Type} (f g : A → bool) (l : list A) :
  List.filter g (List.filter f l) = List.filter (λ x, f x && g x) l.
Proof.
  induction l as [|x l IH]; simpl; [reflexivity|].
  destruct (f x); simpl; [|exact IH].
  destruct (g x); rewrite IH; reflexivity.
Qed.

Lemma not_elem_of_filter {A : Type} (f : A → bool) (l : list A) (x : A) :
  f x = false → x ∉ List.filter f l.
Proof.
  intros Hf Hin. apply list_elem_of_In, filter_In in Hin.
  destruct Hin as [_ Hin]. congruence.
Qed.

(** Once a sum is NaN it stays NaN, and one NaN term makes it so. *)
Lemma fold_sum_NaN {A : Type} (f : A → float) (l : list A) :
  fold_left (λ sum d, (sum + f d)%float) l Js.NaN = Js.NaN.
Proof.
  induction l as [|x l IH]; simpl; [reflexivity|].
  rewrite add_NaN_l. exact IH.
Qed.

Lemma reduce_sum_NaN {A : Type} (f : A → float) (l : list A) (x : A) :
  In x l → f x = Js.NaN → Js.reduce_sum f l = Js.NaN.
Proof.
  unfold Js.reduce_sum. generalize 0%float as acc.
  induction l as [|y l IH]; intros acc Hin Hx; [destruct Hin|].
  simpl. destruct Hin as [->|Hin].
  - rewrite Hx, add_NaN_r. apply fold_sum_NaN.
  - apply IH; assumption.
Qed.

(** Filtering and summing through a view [v] of the elements. *)
Lemma filter_view {A V : Type} (v : A → V) (p : A → bool) (q : V → bool)
    (l1 l2 : list A) :
  (∀ d, p d = q (v d)) →
  map v l1 = map v l2 →
  map v (List.filter p l1) = map v (List.filter p l2).
Proof.
  intros Hpq. revert l2.
  induction l1 as [|d1 l1 IH]; intros [|d2 l2] H;
    try discriminate H; [reflexivity|].
  injection H as Hv Ht. cbn [List.filter]. rewrite !Hpq, Hv.
  destruct (q (v d2)); cbn [map]; [rewrite Hv; f_equal|]; apply IH, Ht.
Qed.

Lemma reduce_sum_view {A V : Type} (v : A → V) (f : V → float)
    (l1 l2 : list A) :
  map v l1 = map v l2 →
  Js.reduce_sum (λ d, f (v d)) l1 = Js.reduce_sum (λ d, f (v d)) l2.
Proof.
  intros H. rewrite <- (reduce_sum_map f v l1).
  rewrite <- (reduce_sum_map f v l2). rewrite H. reflexivity.
Qed.

(** ** Properties of the hook *)

Section Properties.

Context {host : Host}.

(** *** The shape of the output *)

Lemma branchMetrics_eq data targetsMap :
  DashboardSummary.branchMetrics (calculateMetrics data targetsMap)
  = map (branchMetric data targetsMap) BRANCHES.
Proof. reflexivity. Qed.

Lemma channels_eq data targetsMap branch :
  BranchMetrics.channels (branchMetric data targetsMap branch)
  = map (channelMetrics
           (List.filter (λ d, String.eqb (branch_name d) branch) data))
        CHANNELS.
Proof. reflexivity. Qed.

Lemma branchMetrics_names data targetsMap :
  map BranchMetrics.branchName
    (DashboardSummary.branchMetrics (calculateMetrics data targetsMap))
  = BRANCHES.
Proof. rewrite branchMetrics_eq, map_map. apply map_id. Qed.

Lemma channels_names data targetsMap branch :
  map ChannelMetrics.channelName
    (BranchMetrics.channels (branchMetric data targetsMap branch))
  = CHANNELS.
Proof. rewrite channels_eq, map_map. apply map_id. Qed.

(** Every entry of the output is the callback at an enumerated branch. *)
Lemma Forall_branchMetrics (P : BranchMetrics.t → Prop) data targetsMap :
  (∀ branch, P (branchMetric data targetsMap branch)) →
  Forall P (DashboardSummary.branchMetrics (calculateMetrics data targetsMap)).
Proof.
  intros H. rewrite branchMetrics_eq. apply List.Forall_map.
  apply List.Forall_forall. intros branch _. apply H.
Qed.

Lemma Forall_channels (P : ChannelMetrics.t → Prop) data targetsMap branch :
  (∀ branchData channel, P (channelMetrics branchData channel)) →
  Forall P (BranchMetrics.channels (branchMetric data targetsMap branch)).
Proof.
  intros H. rewrite channels_eq. apply List.Forall_map.
  apply List.Forall_forall. intros channel _. apply H.
Qed.

(** *** Aggregating no records *)

Lemma channelMetrics_nil channel :
  channelMetrics [] channel
  = ChannelMetrics.mk channel 0%float 0%float 0%float 0%float 0%float.
Proof. reflexivity. Qed.

Lemma channelMetrics_nil_zeroed channel :
  zeroedChannel (channelMetrics [] channel).
Proof. repeat split. Qed.

Lemma branchMetric_nil_zeroed targetsMap branch :
  zeroedBranch targetsMap (branchMetric [] targetsMap branch).
Proof.
  assert (Hz : Forall zeroedChannel
                 (BranchMetrics.channels (branchMetric [] targetsMap branch))).
  { unfold branchMetric; simpl. apply List.Forall_map, List.Forall_forall.
    intros channel _. apply channelMetrics_nil_zeroed. }
  assert (Hs : BranchMetrics.totalSales (branchMetric [] targetsMap branch)
               = 0%float).
  { unfold branchMetric; simpl. apply reduce_sum_zero.
    apply List.Forall_map, List.Forall_forall. reflexivity. }
  assert (Ho : BranchMetrics.totalOrders (branchMetric [] targetsMap branch)
               = 0%float).
  { unfold branchMetric; simpl. apply reduce_sum_zero.
    apply List.Forall_map, List.Forall_forall. reflexivity. }
  repeat split; try assumption.
  - unfold branchMetric; simpl.
    destruct (targetsMap !! branch); simpl; [reflexivity|].
    apply reduce_sum_zero.
    apply List.Forall_map, List.Forall_forall. reflexivity.
  - unfold branchMetric in *; simpl in *. rewrite Hs.
    destruct (Js.gt0 _) eqn:Hgt; [apply zero_ratio, Hgt|reflexivity].
  - unfold branchMetric in *; simpl in *. rewrite Ho. reflexivity.
  - apply channels_names.
Qed.

Lemma calculateMetrics_nil_zeroed targetsMap :
  Forall (zeroedBranch targetsMap)
    (DashboardSummary.branchMetrics (calculateMetrics [] targetsMap)).
Proof. apply Forall_branchMetrics, branchMetric_nil_zeroed. Qed.

Lemma calculateMetrics_nil_totals targetsMap :
  DashboardSummary.totalSales (calculateMetrics [] targetsMap) = 0%float
  ∧ DashboardSummary.totalOrders (calculateMetrics [] targetsMap) = 0%float
  ∧ DashboardSummary.overallAchievement (calculateMetrics [] targetsMap)
    = 0%float
  ∧ DashboardSummary.overallAov (calculateMetrics [] targetsMap) = 0%float
  ∧ DashboardSummary.totalTarget (calculateMetrics [] targetsMap)
    = Js.reduce_sum (λ branch, default 0%float (targetsMap !! branch))
        BRANCHES.
Proof.
  assert (Hs : DashboardSummary.totalSales (calculateMetrics [] targetsMap)
               = 0%float).
  { unfold calculateMetrics; simpl. rewrite reduce_sum_map.
    apply reduce_sum_zero, List.Forall_forall. intros branch _.
    apply (branchMetric_nil_zeroed targetsMap branch). }
  assert (Ho : DashboardSummary.totalOrders (calculateMetrics [] targetsMap)
               = 0%float).
  { unfold calculateMetrics; simpl. rewrite reduce_sum_map.
    apply reduce_sum_zero, List.Forall_forall. intros branch _.
    apply (branchMetric_nil_zeroed targetsMap branch). }
  repeat split; try assumption.
  - unfold calculateMetrics in *; simpl in *. rewrite Hs.
    destruct (Js.gt0 _) eqn:Hgt; [apply zero_ratio, Hgt|reflexivity].
  - unfold calculateMetrics in *; simpl in *. rewrite Ho. reflexivity.
  - unfold calculateMetrics; simpl. rewrite reduce_sum_map.
    apply reduce_sum_ext, List.Forall_forall. intros branch _.
    apply (branchMetric_nil_zeroed targetsMap branch).
Qed.

Lemma summary_nil filters targetsMap : summary [] filters targetsMap = None.
Proof. reflexivity. Qed.

Lemma summary_cons record salesData filters targetsMap :
  summary (record :: salesData) filters targetsMap
  = Some (calculateMetrics (filteredData (record :: salesData) filters)
            targetsMap).
Proof. reflexivity. Qed.

(** *** The empty input *)

(** C1, amended.  The summary is absent exactly when the raw record
    collection is empty, whatever the filters and the target overrides;
    [calculateMetrics] applied to no records still returns a summary, with
    one zeroed entry per enumerated branch (its target the override when
    there is one); and filtering no records gives no records. *)
Theorem summary_absent_iff_no_raw_records salesData filters targetsMap :
  (summary salesData filters targetsMap = None ↔ salesData = [])
  ∧ map BranchMetrics.branchName
      (DashboardSummary.branchMetrics (calculateMetrics [] targetsMap))
    = BRANCHES
  ∧ Forall (zeroedBranch targetsMap)
      (DashboardSummary.branchMetrics (calculateMetrics [] targetsMap))
  ∧ filteredData [] filters = [].
Proof.
  split; [|split; [|split]].
  - destruct salesData as [|record salesData].
    + split; reflexivity.
    + rewrite summary_cons. split; discriminate.
  - apply branchMetrics_names.
  - apply calculateMetrics_nil_zeroed.
  - reflexivity.
Qed.

(** C10, amended.  The choice between an absent and a present summary
    looks at the raw collection: when it is not empty and the filters
    exclude every record, the summary is present, lists every enumerated
    branch and channel with 0 sales, 0 orders and both ratios 0, has 0 for
    every channel target, and has as a branch's target its override when
    there is one and 0 otherwise; the overall target is the sum of those. *)
Theorem summary_present_when_filters_exclude_all salesData filters targetsMap :
  salesData ≠ [] →
  filteredData salesData filters = [] →
  ∃ s, summary salesData filters targetsMap = Some s
    ∧ map BranchMetrics.branchName (DashboardSummary.branchMetrics s)
      = BRANCHES
    ∧ Forall (zeroedBranch targetsMap) (DashboardSummary.branchMetrics s)
    ∧ DashboardSummary.totalSales s = 0%float
    ∧ DashboardSummary.totalOrders s = 0%float
    ∧ DashboardSummary.overallAchievement s = 0%float
    ∧ DashboardSummary.overallAov s = 0%float
    ∧ DashboardSummary.totalTarget s
      = Js.reduce_sum (λ branch, default 0%float (targetsMap !! branch))
          BRANCHES.
Proof.
  intros Hraw Hnone. destruct salesData as [|record salesData]; [done|].
  exists (calculateMetrics [] targetsMap). rewrite summary_cons, Hnone.
  split; [reflexivity|]. split; [apply branchMetrics_names|].
  split; [apply calculateMetrics_nil_zeroed|].
  apply calculateMetrics_nil_totals.
Qed.

(** *** Target overrides *)

(** C3.  The output has one entry per enumerated branch, in order; the
    entry's [totalTarget] is the override of its branch when the mapping
    has one and the sum of its channels' targets otherwise.  In particular
    an override [X] wins over a channel sum that differs from it. *)
Theorem totalTarget_override_or_channel_sum data targetsMap :
  map BranchMetrics.branchName
    (DashboardSummary.branchMetrics (calculateMetrics data targetsMap))
  = BRANCHES
  ∧ Forall
      (λ b,
         BranchMetrics.totalTarget b
         = match targetsMap !! BranchMetrics.branchName b with
           | Some X => X
           | None =>
               Js.reduce_sum ChannelMetrics.target (BranchMetrics.channels b)
           end)
      (DashboardSummary.branchMetrics (calculateMetrics data targetsMap))
  ∧ Forall
      (λ b, ∀ X,
         targetsMap !! BranchMetrics.branchName b = Some X →
         BranchMetrics.totalTarget b = X
         ∧ (Js.reduce_sum ChannelMetrics.target (BranchMetrics.channels b)
            ≠ X →
            BranchMetrics.totalTarget b
            ≠ Js.reduce_sum ChannelMetrics.target (BranchMetrics.channels b)))
      (DashboardSummary.branchMetrics (calculateMetrics data targetsMap)).
Proof.
  split; [apply branchMetrics_names|].
  split; apply Forall_branchMetrics; intros branch.
  - unfold branchMetric; simpl. destruct (targetsMap !! branch); reflexivity.
  - intros X HX. unfold branchMetric in *; simpl in *. rewrite HX.
    split; [reflexivity|]. intros Hne Heq. apply Hne. symmetry. exact Heq.
Qed.

(** *** Totals *)

(** C4.  Without overrides for the enumerated branches, each total of
    the summary is the sum, in enumeration order and starting from 0, of
    the same total of its branches, and each total of a branch is the sum
    of the same quantity of its channels. *)
Theorem totals_are_sums_of_children data targetsMap :
  (∀ branch, branch ∈ BRANCHES → targetsMap !! branch = None) →
  DashboardSummary.totalSales (calculateMetrics data targetsMap)
  = Js.reduce_sum BranchMetrics.totalSales
      (DashboardSummary.branchMetrics (calculateMetrics data targetsMap))
  ∧ DashboardSummary.totalOrders (calculateMetrics data targetsMap)
    = Js.reduce_sum BranchMetrics.totalOrders
        (DashboardSummary.branchMetrics (calculateMetrics data targetsMap))
  ∧ DashboardSummary.totalTarget (calculateMetrics data targetsMap)
    = Js.reduce_sum BranchMetrics.totalTarget
        (DashboardSummary.branchMetrics (calculateMetrics data targetsMap))
  ∧ Forall
      (λ b,
         BranchMetrics.totalSales b
         = Js.reduce_sum ChannelMetrics.sales (BranchMetrics.channels b)
         ∧ BranchMetrics.totalOrders b
           = Js.reduce_sum ChannelMetrics.orders (BranchMetrics.channels b)
         ∧ BranchMetrics.totalTarget b
           = Js.reduce_sum ChannelMetrics.target (BranchMetrics.channels b))
      (DashboardSummary.branchMetrics (calculateMetrics data targetsMap)).
Proof.
  intros Hfree. repeat split; try reflexivity.
  rewrite branchMetrics_eq. apply List.Forall_map, List.Forall_forall.
  intros branch Hin%list_elem_of_In.
  repeat split; try reflexivity.
  unfold branchMetric; simpl. rewrite (Hfree branch Hin). reflexivity.
Qed.

(** *** Zero guards *)

Lemma zeroGuarded_intro sales orders target :
  zeroGuarded sales orders target
    (if Js.gt0 target then (sales / target * 100)%float else 0%float)
    (if Js.gt0 orders then (sales / orders)%float else 0%float).
Proof.
  repeat split; intros Hz; apply is_zero_not_gt0 in Hz; rewrite Hz;
    reflexivity.
Qed.

(** C6.  At the overall, branch and channel levels the achievement is
    [sales / target * 100] when [target > 0] and 0 otherwise, and the
    average order value is [sales / orders] when [orders > 0] and 0
    otherwise; so a zero orders sum gives 0 for the average and a zero
    target gives 0 for the achievement, and a divisor that is used is
    never a zero. *)
Theorem ratios_are_zero_guarded data targetsMap :
  zeroGuarded
    (DashboardSummary.totalSales (calculateMetrics data targetsMap))
    (DashboardSummary.totalOrders (calculateMetrics data targetsMap))
    (DashboardSummary.totalTarget (calculateMetrics data targetsMap))
    (DashboardSummary.overallAchievement (calculateMetrics data targetsMap))
    (DashboardSummary.overallAov (calculateMetrics data targetsMap))
  ∧ Forall
      (λ b,
         zeroGuarded (BranchMetrics.totalSales b) (BranchMetrics.totalOrders b)
           (BranchMetrics.totalTarget b)
           (BranchMetrics.achievementPercentage b) (BranchMetrics.aov b)
         ∧ Forall
             (λ c,
                zeroGuarded (ChannelMetrics.sales c) (ChannelMetrics.orders c)
                  (ChannelMetrics.target c)
                  (ChannelMetrics.achievementPercentage c)
                  (ChannelMetrics.aov c))
             (BranchMetrics.channels b))
      (DashboardSummary.branchMetrics (calculateMetrics data targetsMap))
  ∧ (∀ divisor, Js.gt0 divisor = true → Js.is_zero divisor = false).
Proof.
  split; [apply zeroGuarded_intro|]. split; [|exact gt0_not_zero].
  apply Forall_branchMetrics. intros branch.
  split; [apply zeroGuarded_intro|].
  apply Forall_channels. intros branchData channel.
  apply zeroGuarded_intro.
Qed.

(** *** Channel metrics and the overrides *)

(** C8.  The channel lists of the branches are the same under any two
    target-override mappings. *)
Theorem channel_metrics_ignore_overrides data targetsMap1 targetsMap2 :
  map BranchMetrics.channels
    (DashboardSummary.branchMetrics (calculateMetrics data targetsMap1))
  = map BranchMetrics.channels
      (DashboardSummary.branchMetrics (calculateMetrics data targetsMap2)).
Proof. rewrite !branchMetrics_eq, !map_map. reflexivity. Qed.

(** *** Composing filters *)

Lemma keep_onlyDateRange filters record :
  keepRecord (onlyDateRange filters) record
  = keepWhen record (outsideDateRange filters).
Proof.
  unfold keepRecord, keepWhen. destruct (date record) as [d|]; [|reflexivity].
  destruct (String.eqb d ""); [reflexivity|].
  change (outsideDateRange (onlyDateRange filters) d)
    with (outsideDateRange filters d).
  destruct (outsideDateRange filters d); reflexivity.
Qed.

Lemma keep_onlyMonth filters record :
  keepRecord (onlyMonth filters) record
  = keepWhen record (outsideMonth filters).
Proof.
  unfold keepRecord, keepWhen. destruct (date record) as [d|]; [|reflexivity].
  destruct (String.eqb d ""); [reflexivity|].
  change (outsideDateRange (onlyMonth filters) d)
    with false.
  change (outsideMonth (onlyMonth filters) d) with (outsideMonth filters d).
  destruct (outsideMonth filters d); reflexivity.
Qed.

Lemma keep_onlyBranches filters record :
  keepRecord (onlyBranches filters) record
  = keepWhen record (λ _, outsideBranches filters record).
Proof.
  unfold keepRecord, keepWhen. destruct (date record) as [d|]; [|reflexivity].
  destruct (String.eqb d ""); [reflexivity|].
  change (outsideDateRange (onlyBranches filters) d)
    with false.
  change (outsideMonth (onlyBranches filters) d) with false.
  change (outsideBranches (onlyBranches filters) record)
    with (outsideBranches filters record).
  destruct (outsideBranches filters record); reflexivity.
Qed.

Lemma keep_onlyChannels filters record :
  keepRecord (onlyChannels filters) record
  = keepWhen record (λ _, outsideChannels filters record).
Proof.
  unfold keepRecord, keepWhen. destruct (date record) as [d|]; [|reflexivity].
  destruct (String.eqb d ""); [reflexivity|].
  change (outsideDateRange (onlyChannels filters) d)
    with false.
  change (outsideMonth (onlyChannels filters) d) with false.
  change (outsideBranches (onlyChannels filters) record) with false.
  change (outsideChannels (onlyChannels filters) record)
    with (outsideChannels filters record).
  destruct (outsideChannels filters record); reflexivity.
Qed.

Lemma keep_onlyDaysOfWeek filters record :
  keepRecord (onlyDaysOfWeek filters) record
  = keepWhen record (outsideDaysOfWeek filters).
Proof.
  unfold keepRecord, keepWhen. destruct (date record) as [d|]; [|reflexivity].
  destruct (String.eqb d ""); reflexivity.
Qed.

(** A filter state is the conjunction of its five fields. *)
Lemma keepRecord_fields filters record :
  keepRecord filters record
  = keepRecord (onlyDateRange filters) record
    && keepRecord (onlyMonth filters) record
    && keepRecord (onlyBranches filters) record
    && keepRecord (onlyChannels filters) record
    && keepRecord (onlyDaysOfWeek filters) record.
Proof.
  rewrite keep_onlyDateRange, keep_onlyMonth, keep_onlyBranches,
    keep_onlyChannels, keep_onlyDaysOfWeek.
  unfold keepRecord, keepWhen. destruct (date record) as [d|]; [|reflexivity].
  destruct (String.eqb d ""); [reflexivity|].
  destruct (outsideDateRange filters d),
    (outsideMonth filters d), (outsideBranches filters record),
    (outsideChannels filters record),
    (outsideDaysOfWeek filters d); reflexivity.
Qed.

(** C7.  Filtering by one state and then by another keeps exactly the
    records that pass both tests, in their order; and one state acts as
    its date range, month, branch, channel and weekday filters applied one
    after the other. *)
Theorem filters_compose salesData filters1 filters2 :
  filteredData (filteredData salesData filters1) filters2
  = List.filter
      (λ record, keepRecord filters1 record && keepRecord filters2 record)
      salesData
  ∧ filteredData salesData filters1
    = filteredData
        (filteredData
           (filteredData
              (filteredData (filteredData salesData (onlyDateRange filters1))
                 (onlyMonth filters1))
              (onlyBranches filters1))
           (onlyChannels filters1))
        (onlyDaysOfWeek filters1).
Proof.
  unfold filteredData. split; [apply filter_filter_andb|].
  rewrite !filter_filter_andb. apply List.filter_ext.
  intros record. rewrite !andb_assoc. apply keepRecord_fields.
Qed.

(** *** Records without a usable date *)

Lemma keepRecord_dateMissing filters record :
  dateMissing record → keepRecord filters record = false.
Proof. unfold keepRecord. intros [Hd|Hd]; rewrite Hd; reflexivity. Qed.

Lemma keepRecord_invalid_dateRange filters record d :
  (∀ start end_, isWithinInterval InvalidDate start end_ = false) →
  date record = Some d → parseISO d = InvalidDate →
  dateRangeActive filters → keepRecord filters record = false.
Proof.
  intros Hlib Hd Hbad (range & start & Hrange & Hfrom).
  unfold keepRecord. rewrite Hd. destruct (String.eqb d ""); [reflexivity|].
  unfold outsideDateRange. rewrite Hrange, Hfrom, Hbad, Hlib. reflexivity.
Qed.

Lemma keepRecord_invalid_daysOfWeek filters record d :
  getDay InvalidDate = None →
  date record = Some d → parseISO d = InvalidDate →
  daysOfWeek filters ≠ [] → keepRecord filters record = false.
Proof.
  intros Hlib Hd Hbad Hdays.
  assert (Hout : outsideDaysOfWeek filters d = true).
  { unfold outsideDaysOfWeek. rewrite Hbad, Hlib.
    destruct (daysOfWeek filters); [done|reflexivity]. }
  unfold keepRecord. rewrite Hd, Hout.
  destruct (String.eqb d ""),
    (outsideDateRange filters d),
    (outsideMonth filters d), (outsideBranches filters record),
    (outsideChannels filters record); reflexivity.
Qed.

Lemma keepRecord_without_date_tests filters record d :
  date record = Some d → d ≠ "" →
  ¬ dateRangeActive filters → daysOfWeek filters = [] →
  keepRecord filters record
  = negb (outsideMonth filters d)
    && negb (outsideBranches filters record)
    && negb (outsideChannels filters record).
Proof.
  intros Hd Hne Hrange Hdays.
  assert (Hout : outsideDateRange filters d = false).
  { unfold outsideDateRange.
    destruct (dateRange filters) as [range|] eqn:Hr; [|reflexivity].
    destruct (from range) as [start|] eqn:Hf; [|reflexivity].
    exfalso. apply Hrange. exists range, start. split; [exact Hr|exact Hf]. }
  assert (Hday : outsideDaysOfWeek filters d = false).
  { unfold outsideDaysOfWeek. rewrite Hdays. reflexivity. }
  unfold keepRecord. rewrite Hd, Hout, Hday.
  rewrite (proj2 (String.eqb_neq d "") Hne).
  destruct (outsideMonth filters d), (outsideBranches filters record),
    (outsideChannels filters record); reflexivity.
Qed.

(** C5, amended.  Given that the date library answers false for an
    invalid date in any interval and NaN for its weekday: whatever the
    filter state, a record whose date is missing (absent or empty) is
    excluded; a record whose date string does not parse is excluded when
    the date range filter or the weekday filter is switched on; and when
    neither is switched on, such a record is kept exactly when it passes
    the month prefix test and the branch and channel set tests. *)
Theorem records_without_date_are_excluded salesData filters record :
  (∀ start end_, isWithinInterval InvalidDate start end_ = false) →
  getDay InvalidDate = None →
  (dateMissing record → record ∉ filteredData salesData filters)
  ∧ (∀ d, date record = Some d → parseISO d = InvalidDate →
       dateRangeActive filters ∨ daysOfWeek filters ≠ [] →
       record ∉ filteredData salesData filters)
  ∧ (∀ d, date record = Some d → d ≠ "" → parseISO d = InvalidDate →
       ¬ dateRangeActive filters → daysOfWeek filters = [] →
       (record ∈ filteredData salesData filters
        ↔ record ∈ salesData
          ∧ outsideMonth filters d = false
          ∧ outsideBranches filters record = false
          ∧ outsideChannels filters record = false)).
Proof.
  intros Hwithin Hday. split; [|split].
  - intros Hmissing. apply not_elem_of_filter.
    apply keepRecord_dateMissing, Hmissing.
  - intros d Hd Hbad [Hrange|Hdays]; apply not_elem_of_filter.
    + eapply keepRecord_invalid_dateRange; eassumption.
    + eapply keepRecord_invalid_daysOfWeek; eassumption.
  - intros d Hd Hne _ Hrange Hdays. unfold filteredData.
    rewrite !list_elem_of_In, filter_In.
    rewrite (keepRecord_without_date_tests filters record d Hd Hne Hrange
               Hdays).
    destruct (outsideMonth filters d), (outsideBranches filters record),
      (outsideChannels filters record); cbn; intuition discriminate.
Qed.

(** *** What the aggregation reads *)

Lemma channelMetrics_view branchData1 branchData2 channel :
  map recordView branchData1 = map recordView branchData2 →
  channelMetrics branchData1 channel = channelMetrics branchData2 channel.
Proof.
  intros H.
  apply (filter_view recordView (λ d, String.eqb (channel_name d) channel)
           (λ v, String.eqb (v.1.2) channel)) in H; [|reflexivity].
  unfold channelMetrics; cbv zeta.
  rewrite (reduce_sum_view recordView (λ v, v.2.1.1) _ _ H : Js.reduce_sum
    (λ d, Number (sales_value d)) _ = _).
  rewrite (reduce_sum_view recordView (λ v, v.2.1.2) _ _ H : Js.reduce_sum
    (λ d, Number (orders_count d)) _ = _).
  rewrite (reduce_sum_view recordView (λ v, v.2.2) _ _ H : Js.reduce_sum
    (λ d, Number (target_value d)) _ = _).
  reflexivity.
Qed.

Lemma branchMetric_view data1 data2 targetsMap1 targetsMap2 branch :
  map recordView data1 = map recordView data2 →
  targetsMap1 !! branch = targetsMap2 !! branch →
  branchMetric data1 targetsMap1 branch = branchMetric data2 targetsMap2 branch.
Proof.
  intros H Htm.
  apply (filter_view recordView (λ d, String.eqb (branch_name d) branch)
           (λ v, String.eqb (v.1.1) branch)) in H; [|reflexivity].
  unfold branchMetric; cbv zeta.
  rewrite (map_ext _ _ (λ channel, channelMetrics_view _ _ channel H)).
  rewrite Htm. reflexivity.
Qed.

(** The output is fixed by the branch, channel and coerced numeric fields
    of the records and by the overrides of the enumerated branches. *)
Lemma calculateMetrics_view data1 data2 targetsMap1 targetsMap2 :
  map recordView data1 = map recordView data2 →
  (∀ branch, branch ∈ BRANCHES →
     targetsMap1 !! branch = targetsMap2 !! branch) →
  calculateMetrics data1 targetsMap1 = calculateMetrics data2 targetsMap2.
Proof.
  intros H Htm. unfold calculateMetrics; cbv zeta.
  rewrite (map_ext_in (branchMetric data1 targetsMap1)
             (branchMetric data2 targetsMap2) BRANCHES); [reflexivity|].
  intros branch Hin%list_elem_of_In. apply branchMetric_view; auto.
Qed.

(** *** Missing numeric fields *)

(** One record of an enumerated branch and channel whose [sales_value] is
    missing turns the sales of its channel, of its branch and of the whole
    summary into NaN. *)
Lemma missing_sales_value_poisons_totalSales data targetsMap record :
  In record data →
  In (branch_name record) BRANCHES →
  In (channel_name record) CHANNELS →
  sales_value record = Js.undefined →
  DashboardSummary.totalSales (calculateMetrics data targetsMap) = Js.NaN.
Proof.
  intros Hin Hb Hc Hmissing.
  set (branchData :=
         List.filter (λ d, String.eqb (branch_name d) (branch_name record))
           data).
  assert (Hchannel :
            ChannelMetrics.sales
              (channelMetrics branchData (channel_name record))
            = Js.NaN).
  { unfold channelMetrics; cbv zeta; simpl.
    apply (reduce_sum_NaN _ _ record).
    - apply filter_In. split; [|apply String.eqb_refl].
      apply filter_In. split; [exact Hin|apply String.eqb_refl].
    - unfold Number. rewrite Hmissing. reflexivity. }
  assert (Hbranch :
            BranchMetrics.totalSales
              (branchMetric data targetsMap (branch_name record)) = Js.NaN).
  { unfold branchMetric; cbv zeta; simpl.
    apply (reduce_sum_NaN _ _
             (channelMetrics branchData (channel_name record)));
      [|exact Hchannel].
    apply in_map, Hc. }
  unfold calculateMetrics; cbv zeta; simpl.
  apply (reduce_sum_NaN _ _
           (branchMetric data targetsMap (branch_name record)));
    [|exact Hbranch].
  apply in_map, Hb.
Qed.

End Properties.

(** ** The hook on the sample store *)

(** The scenario of the specification: two records of branch A, no
    override. *)
Example scenario_branch_A :
  map (λ b, (BranchMetrics.branchName b, BranchMetrics.totalSales b,
             BranchMetrics.totalOrders b, BranchMetrics.totalTarget b,
             BranchMetrics.achievementPercentage b, BranchMetrics.aov b))
      (DashboardSummary.branchMetrics
         (Sample.calculateMetrics [Sample.r1; Sample.r2] ∅))
  = [("A", 150, 3, 50, 300, 50); ("B", 0, 0, 0, 0, 0)]%float.
Proof. vm_compute. reflexivity. Qed.

Example scenario_channels_of_A :
  map (λ c, (ChannelMetrics.channelName c,
             ChannelMetrics.achievementPercentage c, ChannelMetrics.aov c))
      (BranchMetrics.channels
         (Sample.branchMetric
            [Sample.r1; Sample.r2] ∅ "A"))
  = [("X", 200, 50); ("Y", 0, 50)]%float.
Proof. vm_compute. reflexivity. Qed.

(** 2024-03-01 is a Friday. *)
Example scenario_fridays :
  Sample.filteredData [Sample.r1; Sample.r2] Sample.fridays = [Sample.r1].
Proof. vm_compute. reflexivity. Qed.

Example scenario_override :
  map (λ b, (BranchMetrics.totalTarget b,
             BranchMetrics.achievementPercentage b,
             map ChannelMetrics.target (BranchMetrics.channels b)))
      (DashboardSummary.branchMetrics
         (Sample.calculateMetrics [Sample.r1; Sample.r2] Sample.overrideA))
  = [(1000, 15, [50; 0]); (0, 0, [0; 0])]%float.
Proof. vm_compute. reflexivity. Qed.

(** Branch A and then branch B leaves nothing, as the conjunction of the two
    tests does; the one state whose branch set is what the two sets share,
    the empty set, filters nothing. *)
Example disjoint_branch_sets :
  Sample.filteredData
    (Sample.filteredData [Sample.r1; Sample.r2] Sample.onlyBranchA)
    Sample.onlyBranchB = []
  ∧ Sample.filteredData [Sample.r1; Sample.r2] noFilters
    = [Sample.r1; Sample.r2].
Proof. vm_compute. split; reflexivity. Qed.

(** *** Missing numeric fields *)

(** C2, the defect.  On the record [r1] fetched without its
    [sales_value], [Number] gives NaN and the NaN reaches the channel, the
    branch and the overall figures; the monthly report, which coerces the
    same field with a fallback to 0, reads 0 there. *)
Theorem missing_sales_value_yields_NaN :
  map ChannelMetrics.sales
    (BranchMetrics.channels
       (Sample.branchMetric
          [Sample.r1_missing_sales] ∅ "A"))
  = [Js.NaN; 0%float]
  ∧ map (λ b, (BranchMetrics.totalSales b,
               BranchMetrics.achievementPercentage b, BranchMetrics.aov b))
      (DashboardSummary.branchMetrics
         (Sample.calculateMetrics [Sample.r1_missing_sales] ∅))
    = [(Js.NaN, Js.NaN, Js.NaN); (0, 0, 0)%float]
  ∧ DashboardSummary.totalSales
      (Sample.calculateMetrics [Sample.r1_missing_sales] ∅) = Js.NaN
  ∧ DashboardSummary.overallAchievement
      (Sample.calculateMetrics [Sample.r1_missing_sales] ∅) = Js.NaN
  ∧ DashboardSummary.overallAov
      (Sample.calculateMetrics [Sample.r1_missing_sales] ∅) = Js.NaN
  ∧ monthlyNumber (host := Sample.host)
      (sales_value Sample.r1_missing_sales) = 0%float.
Proof. vm_compute. repeat split; reflexivity. Qed.

(** *** Counterexamples *)

(** C1 as stated fails: the filters leave no record of a raw collection
    that is not empty, and aggregating the empty collection gives a present
    summary. *)
Lemma aggregate_of_no_records_is_present :
  Sample.filteredData [Sample.r1] Sample.onlyBranchB = []
  ∧ Sample.summary [Sample.r1] Sample.onlyBranchB ∅
    = Some (Sample.calculateMetrics [] ∅)
  ∧ Sample.summary [Sample.r1] Sample.onlyBranchB ∅ ≠ None.
Proof. vm_compute. repeat split; discriminate. Qed.

(** C10 as stated fails: with an override for branch A the summary of a
    fully filtered collection is not fully zeroed, the targets of branch A
    and of the whole are the override. *)
Lemma fully_filtered_summary_keeps_override :
  Sample.filteredData [Sample.r1] Sample.onlyBranchB = []
  ∧ (λ s, map BranchMetrics.totalTarget (DashboardSummary.branchMetrics s))
    <$> Sample.summary [Sample.r1] Sample.onlyBranchB Sample.overrideA
    = Some [1000; 0]%float
  ∧ DashboardSummary.totalTarget
    <$> Sample.summary [Sample.r1] Sample.onlyBranchB Sample.overrideA
    = Some 1000%float.
Proof. vm_compute. repeat split; reflexivity. Qed.

(** C5 as stated fails: a date string that does not parse passes when no
    filter is switched on, and passes the month filter when it has the
    month as a prefix. *)
Lemma unparsable_date_is_kept :
  Sample.parseISO "garbage" = InvalidDate
  ∧ Sample.filteredData [Sample.r_garbage] noFilters = [Sample.r_garbage]
  ∧ Sample.parseISO "2024-03-xx" = InvalidDate
  ∧ Sample.filteredData [Sample.r_badday] Sample.march2024
    = [Sample.r_badday].
Proof. vm_compute. repeat split; reflexivity. Qed.

(** *** Witnesses *)

(** C10 on the sample store: a raw collection of one record of branch A,
    filtered down to branch B, with an override for branch A. *)
Lemma summary_present_when_filters_exclude_all_witness :
  [Sample.r1] ≠ []
  ∧ Sample.filteredData [Sample.r1] Sample.onlyBranchB = []
  ∧ ∃ s,
      Sample.summary [Sample.r1] Sample.onlyBranchB Sample.overrideA = Some s
      ∧ map BranchMetrics.branchName (DashboardSummary.branchMetrics s)
        = Sample.BRANCHES
      ∧ DashboardSummary.totalSales s = 0%float
      ∧ DashboardSummary.totalOrders s = 0%float.
Proof.
  assert (Hraw : [Sample.r1] ≠ []) by discriminate.
  assert (Hnone : Sample.filteredData [Sample.r1] Sample.onlyBranchB = [])
    by reflexivity.
  split; [exact Hraw|]. split; [exact Hnone|].
  destruct (summary_present_when_filters_exclude_all
              (host := Sample.host)
              [Sample.r1] Sample.onlyBranchB Sample.overrideA Hraw Hnone)
    as (s & Hs & Hnames & _ & Hsales & Horders & _).
  exists s. repeat split; assumption.
Defined.

(** C3 on the scenario with the override 1000 for branch A, whose channel
    targets add up to 50. *)
Lemma totalTarget_override_or_channel_sum_witness :
  Sample.overrideA !! "A" = Some 1000%float
  ∧ Js.reduce_sum ChannelMetrics.target
      (BranchMetrics.channels
         (Sample.branchMetric
            [Sample.r1; Sample.r2] Sample.overrideA "A")) = 50%float
  ∧ BranchMetrics.totalTarget
      (Sample.branchMetric
         [Sample.r1; Sample.r2] Sample.overrideA "A") = 1000%float.
Proof.
  assert (Hov : Sample.overrideA !! "A" = Some 1000%float) by reflexivity.
  split; [exact Hov|]. split; [reflexivity|].
  destruct (totalTarget_override_or_channel_sum
              (host := Sample.host)
              [Sample.r1; Sample.r2] Sample.overrideA) as (_ & _ & Hwins).
  apply List.Forall_inv in Hwins. apply (Hwins 1000%float Hov).
Defined.

(** C4 on the scenario without overrides. *)
Lemma totals_are_sums_of_children_witness :
  (∀ branch, branch ∈ Sample.BRANCHES →
     (∅ : gmap string float) !! branch = None)
  ∧ DashboardSummary.totalSales
      (Sample.calculateMetrics [Sample.r1; Sample.r2] ∅)
    = Js.reduce_sum BranchMetrics.totalSales
        (DashboardSummary.branchMetrics
         (Sample.calculateMetrics [Sample.r1; Sample.r2] ∅))
  ∧ Forall
      (λ b, BranchMetrics.totalTarget b
            = Js.reduce_sum ChannelMetrics.target (BranchMetrics.channels b))
      (DashboardSummary.branchMetrics
         (Sample.calculateMetrics [Sample.r1; Sample.r2] ∅)).
Proof.
  assert (Hfree : ∀ branch, branch ∈ Sample.BRANCHES →
                    (∅ : gmap string float) !! branch = None)
    by (intros branch _; apply lookup_empty).
  split; [exact Hfree|].
  destruct (totals_are_sums_of_children
              (host := Sample.host)
              [Sample.r1; Sample.r2] ∅ Hfree) as (Hsales & _ & _ & Hbranches).
  split; [exact Hsales|].
  eapply List.Forall_impl; [|exact Hbranches].
  intros b (_ & _ & Htarget). exact Htarget.
Defined.

(** C5 on the sample date functions: the record without a date under no
    filter, the record with an unparsable date under the weekday filter, and
    the same record kept when no filter is switched on. *)
Lemma records_without_date_are_excluded_witness :
  (∀ start end_, Sample.isWithinInterval InvalidDate start end_ = false)
  ∧ Sample.getDay InvalidDate = None
  ∧ (Sample.r_nodate
     ∉ Sample.filteredData [Sample.r_nodate; Sample.r1] noFilters)
  ∧ (Sample.r_garbage
     ∉ Sample.filteredData [Sample.r_garbage; Sample.r1] Sample.fridays)
  ∧ (Sample.r_garbage
     ∈ Sample.filteredData [Sample.r_garbage; Sample.r1] noFilters).
Proof.
  assert (Hwithin : ∀ start end_,
            Sample.isWithinInterval InvalidDate start end_ = false)
    by (intros start end_; reflexivity).
  assert (Hday : Sample.getDay InvalidDate = None) by reflexivity.
  split; [exact Hwithin|]. split; [exact Hday|]. split; [|split].
  - apply (records_without_date_are_excluded
             (host := Sample.host)
             [Sample.r_nodate; Sample.r1] noFilters Sample.r_nodate
             Hwithin Hday).
    left. reflexivity.
  - apply (proj1 (proj2 (records_without_date_are_excluded
                           (host := Sample.host)
                           [Sample.r_garbage; Sample.r1] Sample.fridays
                           Sample.r_garbage Hwithin Hday)) "garbage").
    + reflexivity.
    + reflexivity.
    + right. discriminate.
  - apply (proj2 (proj2 (records_without_date_are_excluded
                           (host := Sample.host)
                           [Sample.r_garbage; Sample.r1] noFilters
                           Sample.r_garbage Hwithin Hday)) "garbage").
    + reflexivity.
    + discriminate.
    + reflexivity.
    + intros (range & start & Hrange & _). discriminate Hrange.
    + reflexivity.
    + split; [left|repeat split].
Defined.

(** C6 on the empty collection: the orders add up to 0 and the average
    order value is 0. *)
Lemma ratios_are_zero_guarded_witness :
  Js.is_zero (DashboardSummary.totalOrders (Sample.calculateMetrics [] ∅))
  = true
  ∧ DashboardSummary.overallAov (Sample.calculateMetrics [] ∅) = 0%float.
Proof.
  assert (Hz : Js.is_zero
                 (DashboardSummary.totalOrders (Sample.calculateMetrics [] ∅))
               = true) by reflexivity.
  split; [exact Hz|].
  destruct (ratios_are_zero_guarded
              (host := Sample.host) [] ∅)
    as ((_ & _ & _ & Haov) & _ & _).
  exact (Haov Hz).
Defined.


(** ** More of the aggregation *)

Section Aggregation.

Context {host : Host}.

Lemma includes_true (l : list string) (x : string) :
  Js.includes l x = true ↔ In x l.
Proof.
  unfold Js.includes. rewrite existsb_exists. split.
  - intros (y & Hin & Heq). apply String.eqb_eq in Heq. subst. exact Hin.
  - intros Hin. exists x. split; [exact Hin|apply String.eqb_refl].
Qed.

(** The two callbacks read the records through their filters only. *)
Lemma channelMetrics_channelData branchData1 branchData2 channel :
  List.filter (λ d, String.eqb (channel_name d) channel) branchData1
  = List.filter (λ d, String.eqb (channel_name d) channel) branchData2 →
  channelMetrics branchData1 channel = channelMetrics branchData2 channel.
Proof. intros H. unfold channelMetrics; cbv zeta. rewrite H. reflexivity. Qed.

Lemma branchMetric_branchData data1 data2 targetsMap branch :
  List.filter (λ d, String.eqb (branch_name d) branch) data1
  = List.filter (λ d, String.eqb (branch_name d) branch) data2 →
  branchMetric data1 targetsMap branch = branchMetric data2 targetsMap branch.
Proof. intros H. unfold branchMetric; cbv zeta. rewrite H. reflexivity. Qed.

Lemma enumerated_channelData data branch channel :
  In branch BRANCHES → In channel CHANNELS →
  List.filter (λ d, String.eqb (channel_name d) channel)
    (List.filter (λ d, String.eqb (branch_name d) branch)
       (List.filter enumerated data))
  = List.filter (λ d, String.eqb (channel_name d) channel)
      (List.filter (λ d, String.eqb (branch_name d) branch) data).
Proof.
  intros Hb Hc. rewrite !filter_filter_andb. apply List.filter_ext.
  intros d. unfold enumerated.
  destruct (String.eqb_spec (branch_name d) branch) as [->|];
    [|rewrite andb_false_r; reflexivity].
  destruct (String.eqb_spec (channel_name d) channel) as [->|];
    [|rewrite !andb_false_r; reflexivity].
  rewrite (proj2 (includes_true BRANCHES branch) Hb).
  rewrite (proj2 (includes_true CHANNELS channel) Hc). reflexivity.
Qed.

(** Records of a branch or a channel that is not enumerated do not count:
    dropping them changes nothing in the summary. *)
Theorem calculateMetrics_ignores_unlisted data targetsMap :
  calculateMetrics (List.filter enumerated data) targetsMap
  = calculateMetrics data targetsMap.
Proof.
  unfold calculateMetrics; cbv zeta.
  rewrite (map_ext_in (branchMetric (List.filter enumerated data) targetsMap)
             (branchMetric data targetsMap) BRANCHES); [reflexivity|].
  intros branch Hb. unfold branchMetric; cbv zeta.
  rewrite (map_ext_in
             (channelMetrics
                (List.filter (λ d, String.eqb (branch_name d) branch)
                   (List.filter enumerated data)))
             (channelMetrics
                (List.filter (λ d, String.eqb (branch_name d) branch) data))
             CHANNELS); [reflexivity|].
  intros channel Hc. apply channelMetrics_channelData.
  apply enumerated_channelData; assumption.
Qed.

(** *** Filtered-out branches and channels *)

Lemma keepRecord_branches filters record :
  keepRecord filters record = true → outsideBranches filters record = false.
Proof.
  unfold keepRecord. destruct (date record) as [d|]; [|discriminate].
  destruct (String.eqb d ""), (outsideDateRange filters d),
    (outsideMonth filters d), (outsideBranches filters record);
    try discriminate; reflexivity.
Qed.

Lemma keepRecord_channels filters record :
  keepRecord filters record = true → outsideChannels filters record = false.
Proof.
  unfold keepRecord. destruct (date record) as [d|]; [|discriminate].
  destruct (String.eqb d ""), (outsideDateRange filters d),
    (outsideMonth filters d), (outsideBranches filters record),
    (outsideChannels filters record); try discriminate; reflexivity.
Qed.

Lemma filter_none {A : Type} (f : A → bool) (l : list A) :
  (∀ x, In x l → f x = false) → List.filter f l = [].
Proof.
  induction l as [|x l IH]; intros H; simpl; [reflexivity|].
  rewrite (H x (or_introl eq_refl)). apply IH.
  intros y Hy. apply H. right. exact Hy.
Qed.

Lemma filteredData_other_branch salesData filters branch :
  branches filters ≠ [] →
  Js.includes (branches filters) branch = false →
  List.filter (λ d, String.eqb (branch_name d) branch)
    (filteredData salesData filters) = [].
Proof.
  intros Hactive Hout. apply filter_none. intros d Hin.
  apply filter_In in Hin. destruct Hin as [_ Hkeep].
  apply keepRecord_branches in Hkeep. unfold outsideBranches in Hkeep.
  destruct (String.eqb_spec (branch_name d) branch) as [Heq|]; [|reflexivity].
  rewrite Heq, Hout in Hkeep.
  destruct (branches filters); [done|discriminate].
Qed.

Lemma filteredData_other_channel salesData filters (p : SalesRecord → bool)
    channel :
  channels filters ≠ [] →
  Js.includes (channels filters) channel = false →
  List.filter (λ d, String.eqb (channel_name d) channel)
    (List.filter p (filteredData salesData filters)) = [].
Proof.
  intros Hactive Hout. apply filter_none. intros d Hin.
  apply filter_In in Hin. destruct Hin as [Hin _].
  apply filter_In in Hin. destruct Hin as [_ Hkeep].
  apply keepRecord_channels in Hkeep. unfold outsideChannels in Hkeep.
  destruct (String.eqb_spec (channel_name d) channel) as [Heq|]; [|reflexivity].
  rewrite Heq, Hout in Hkeep.
  destruct (channels filters); [done|discriminate].
Qed.

(** With a branch filter switched on, the summary of the filtered records
    still lists every enumerated branch, in order, and every branch outside
    the selection is zeroed (its target the override when it has one). *)
Theorem unselected_branches_are_zeroed salesData filters targetsMap :
  branches filters ≠ [] →
  map BranchMetrics.branchName
    (DashboardSummary.branchMetrics
       (calculateMetrics (filteredData salesData filters) targetsMap))
  = BRANCHES
  ∧ Forall
      (λ b,
         Js.includes (branches filters) (BranchMetrics.branchName b) = false →
         zeroedBranch targetsMap b)
      (DashboardSummary.branchMetrics
         (calculateMetrics (filteredData salesData filters) targetsMap)).
Proof.
  intros Hactive. split; [apply branchMetrics_names|].
  apply Forall_branchMetrics. intros branch Hout.
  rewrite (branchMetric_branchData (filteredData salesData filters) []
             targetsMap branch).
  - apply branchMetric_nil_zeroed.
  - apply filteredData_other_branch; assumption.
Qed.

(** With a channel filter switched on, the summary of the filtered records
    still lists every enumerated branch and, under each of them, every
    enumerated channel, in order, and every channel outside the selection
    is zeroed. *)
Theorem unselected_channels_are_zeroed salesData filters targetsMap :
  channels filters ≠ [] →
  map BranchMetrics.branchName
    (DashboardSummary.branchMetrics
       (calculateMetrics (filteredData salesData filters) targetsMap))
  = BRANCHES
  ∧ Forall
      (λ b,
         map ChannelMetrics.channelName (BranchMetrics.channels b) = CHANNELS
         ∧ Forall
             (λ c,
                Js.includes (channels filters) (ChannelMetrics.channelName c)
                = false →
                zeroedChannel c)
             (BranchMetrics.channels b))
      (DashboardSummary.branchMetrics
         (calculateMetrics (filteredData salesData filters) targetsMap)).
Proof.
  intros Hactive. split; [apply branchMetrics_names|].
  apply Forall_branchMetrics. intros branch.
  split; [apply channels_names|].
  rewrite channels_eq. apply List.Forall_map, List.Forall_forall.
  intros channel _ Hout.
  rewrite (channelMetrics_channelData _ [] channel).
  - apply channelMetrics_nil_zeroed.
  - apply filteredData_other_channel; assumption.
Qed.

(** *** Overrides that are not positive *)

(** An override that is not greater than 0 (0, a negative number, NaN) is
    still the branch's target, never replaced by the channel sum, and the
    branch's achievement is then 0 whatever it sold. *)
Theorem nonpositive_override_zeroes_achievement data targetsMap :
  Forall
    (λ b, ∀ X,
       targetsMap !! BranchMetrics.branchName b = Some X →
       Js.gt0 X = false →
       BranchMetrics.totalTarget b = X
       ∧ BranchMetrics.achievementPercentage b = 0%float)
    (DashboardSummary.branchMetrics (calculateMetrics data targetsMap)).
Proof.
  apply Forall_branchMetrics. intros branch X HX Hgt.
  unfold branchMetric in *; simpl in *. rewrite HX, Hgt. split; reflexivity.
Qed.

End Aggregation.

(** ** The target overrides read from the store *)

Lemma targetsMapOf_snoc targets t :
  targetsMapOf (targets ++ [t])
  = if String.eqb (BranchTarget.branch_name t) "__proto__"
    then targetsMapOf targets
    else <[BranchTarget.branch_name t := BranchTarget.target_value t]>
           (targetsMapOf targets).
Proof. unfold targetsMapOf. rewrite fold_left_app. reflexivity. Qed.

Lemma targetsMapOf_last targets branch :
  targetsMapOf targets !! branch
  = if String.eqb branch "__proto__" then None
    else last (map BranchTarget.target_value
                 (List.filter
                    (λ t, String.eqb (BranchTarget.branch_name t) branch)
                    targets)).
Proof.
  induction targets as [|t targets IH] using rev_ind.
  - unfold targetsMapOf; simpl. rewrite lookup_empty.
    destruct (String.eqb branch "__proto__"); reflexivity.
  - rewrite targetsMapOf_snoc, List.filter_app, List.map_app. cbn [List.filter].
    destruct (String.eqb_spec (BranchTarget.branch_name t) branch) as [Heq|Hne].
    + subst branch.
      destruct (String.eqb (BranchTarget.branch_name t) "__proto__") eqn:Hp.
      * exact IH.
      * rewrite lookup_insert_eq. cbn [map]. rewrite last_snoc. reflexivity.
    + cbn [map]. rewrite app_nil_r.
      destruct (String.eqb (BranchTarget.branch_name t) "__proto__").
      * exact IH.
      * rewrite lookup_insert_ne by exact Hne. exact IH.
Qed.

(** The map built from the fetched rows gives, for a branch, the target of
    the last row of that branch, and nothing when no row is of that branch:
    a later row wins over an earlier one.  The key [__proto__] never holds
    a target. *)
Theorem targetsMapOf_lookup targets branch :
  targetsMapOf targets !! branch
  = if String.eqb branch "__proto__" then None
    else last (map BranchTarget.target_value
                 (List.filter
                    (λ t, String.eqb (BranchTarget.branch_name t) branch)
                    targets)).
Proof. exact (targetsMapOf_last targets branch). Qed.

Section DefaultTargets.

Context {host : Host}.

Lemma last_all {A : Type} (l : list A) (x : A) :
  l ≠ [] → Forall (λ y, y = x) l → last l = Some x.
Proof.
  intros Hne Hall. destruct (last l) as [y|] eqn:Hlast.
  - apply last_Some in Hlast. destruct Hlast as [l' ->].
    apply List.Forall_app in Hall. destruct Hall as [_ Hall].
    apply List.Forall_inv in Hall. rewrite Hall. reflexivity.
  - apply last_None in Hlast. contradiction.
Qed.

Lemma defaultTargets_lookup targetMonth branch :
  In branch BRANCHES → branch ≠ "__proto__" →
  targetsMapOf (UseTargets.upsertData UseTargets.defaultTargets targetMonth)
  !! branch = Some 0%float.
Proof.
  intros Hin Hne. rewrite targetsMapOf_last.
  destruct (String.eqb_spec branch "__proto__") as [|_]; [contradiction|].
  unfold UseTargets.upsertData, UseTargets.defaultTargets.
  rewrite map_map. cbn [fst snd].
  apply last_all.
  - intros Hnil. apply map_eq_nil in Hnil.
    assert (Hmem : In (BranchTarget.mk branch targetMonth 0%float)
                     (List.filter
                        (λ t, String.eqb (BranchTarget.branch_name t) branch)
                        (map (λ x, BranchTarget.mk x targetMonth 0%float)
                           BRANCHES))).
    { apply filter_In. split; [|apply String.eqb_refl].
      apply (in_map (λ x, BranchTarget.mk x targetMonth 0%float)), Hin. }
    rewrite Hnil in Hmem. destruct Hmem.
  - apply List.Forall_map, List.Forall_forall. intros t Ht.
    apply filter_In in Ht. destruct Ht as [Ht _].
    apply in_map_iff in Ht. destruct Ht as (b & <- & _). reflexivity.
Qed.

(** When the rows fetched for the month are the defaults that
    [initializeDefaultTargets] writes, a target of 0 for every enumerated
    branch, the 0 is taken as the override of every branch: every branch
    target, the overall target and every branch and overall achievement are
    0, whatever targets and sales the records carry. *)
Theorem default_targets_zero_every_achievement data targetMonth :
  ¬ In "__proto__" BRANCHES →
  Forall
    (λ b, BranchMetrics.totalTarget b = 0%float
          ∧ BranchMetrics.achievementPercentage b = 0%float)
    (DashboardSummary.branchMetrics
       (calculateMetrics data
          (targetsMapOf
             (UseTargets.upsertData UseTargets.defaultTargets targetMonth))))
  ∧ DashboardSummary.totalTarget
      (calculateMetrics data
         (targetsMapOf
            (UseTargets.upsertData UseTargets.defaultTargets targetMonth)))
    = 0%float
  ∧ DashboardSummary.overallAchievement
      (calculateMetrics data
         (targetsMapOf
            (UseTargets.upsertData UseTargets.defaultTargets targetMonth)))
    = 0%float.
Proof.
  intros Hproto.
  set (tm := targetsMapOf
               (UseTargets.upsertData UseTargets.defaultTargets targetMonth)).
  assert (Hbranch : ∀ branch, In branch BRANCHES →
            BranchMetrics.totalTarget (branchMetric data tm branch) = 0%float
            ∧ BranchMetrics.achievementPercentage
                (branchMetric data tm branch) = 0%float).
  { intros branch Hin.
    assert (Hlook : tm !! branch = Some 0%float).
    { apply defaultTargets_lookup; [exact Hin|].
      intros ->. apply Hproto, Hin. }
    unfold branchMetric; simpl. rewrite Hlook. split; reflexivity. }
  assert (Htotal : DashboardSummary.totalTarget (calculateMetrics data tm)
                   = 0%float).
  { unfold calculateMetrics; simpl. rewrite reduce_sum_map.
    apply reduce_sum_zero, List.Forall_forall. intros branch Hin.
    apply (Hbranch branch Hin). }
  split; [|split; [exact Htotal|]].
  - rewrite branchMetrics_eq. apply List.Forall_map, List.Forall_forall.
    exact Hbranch.
  - unfold calculateMetrics in *; simpl in *. rewrite Htotal. reflexivity.
Qed.

(** ** The branch page *)

Lemma find_branchMetric data targetsMap name (l : list string) :
  List.find (λ b, String.eqb (BranchMetrics.branchName b) name)
    (map (branchMetric data targetsMap) l)
  = if Js.includes l name then Some (branchMetric data targetsMap name)
    else None.
Proof.
  unfold Js.includes. induction l as [|branch l IH]; simpl; [reflexivity|].
  rewrite (String.eqb_sym name branch).
  destruct (String.eqb_spec branch name) as [->|_]; [reflexivity|exact IH].
Qed.

(** Once the hook holds records, the branch page finds an entry exactly for
    the enumerated branches, and the entry is that branch's aggregate of the
    filtered records, also when no record is of that branch; with no record
    at all it finds nothing, and unless the hook is loading it navigates
    back although the branch exists. *)
Theorem branch_page_finds_enumerated_branches salesData filters targetsMap
    name :
  (salesData ≠ [] →
   BranchDetail.branchData (summary salesData filters targetsMap) name
   = if Js.includes BRANCHES name
     then Some (branchMetric (filteredData salesData filters) targetsMap name)
     else None)
  ∧ BranchDetail.branchData (summary [] filters targetsMap) name = None
  ∧ BranchDetail.redirects (Some name) (summary [] filters targetsMap) false
    = true.
Proof.
  split; [|split].
  - intros Hraw. destruct salesData as [|record salesData]; [done|].
    rewrite summary_cons. unfold BranchDetail.branchData.
    rewrite branchMetrics_eq. apply find_branchMetric.
  - reflexivity.
  - unfold BranchDetail.redirects. simpl.
    destruct (String.eqb name ""); reflexivity.
Qed.

End DefaultTargets.

(** ** The monthly report *)

Lemma reduce_sum_snoc {A : Type} (f : A → float) (l : list A) (x : A) :
  Js.reduce_sum f (l ++ [x]) = (Js.reduce_sum f l + f x)%float.
Proof. unfold Js.reduce_sum. rewrite fold_left_app. reflexivity. Qed.



Lemma inMonth_monthKey key record :
  inMonth key record = true ↔ MonthlyReports.monthKey record = Some key.
Proof.
  unfold inMonth. destruct (MonthlyReports.monthKey record) as [k|].
  - rewrite String.eqb_eq. split; congruence.
  - split; discriminate.
Qed.

Section Monthly.

Context {host : Host}.

Lemma monthsMap_snoc salesData record :
  MonthlyReports.monthsMap (salesData ++ [record])
  = match MonthlyReports.monthsMap salesData with
    | Some m => MonthlyReports.addRecord m record
    | None => None
    end.
Proof. unfold MonthlyReports.monthsMap. rewrite fold_left_app. reflexivity. Qed.

Lemma entryOf_skip key salesData record :
  inMonth key record = false →
  entryOf key (salesData ++ [record]) = entryOf key salesData.
Proof.
  intros Hout. unfold entryOf. rewrite List.filter_app. cbn [List.filter].
  rewrite Hout, app_nil_r. reflexivity.
Qed.

Lemma entryOf_count key salesData record :
  inMonth key record = true →
  entryOf key (salesData ++ [record])
  = let e :=
      default (MonthlyReports.mkEntry 0 0 0 []) (entryOf key salesData) in
    Some (MonthlyReports.mkEntry
            (MonthlyReports.sales e + monthlyNumber (sales_value record))
            (MonthlyReports.orders e + monthlyNumber (orders_count record))
            (MonthlyReports.target e + monthlyNumber (target_value record))
            (MonthlyReports.records e ++ [record])).
Proof.
  intros Hin. unfold entryOf. rewrite List.filter_app. cbn [List.filter].
  rewrite Hin. destruct (List.filter (inMonth key) salesData) as [|x rs].
  - reflexivity.
  - pose proof (reduce_sum_snoc (λ r, monthlyNumber (sales_value r))
                  (x :: rs) record) as Hsales.
    pose proof (reduce_sum_snoc (λ r, monthlyNumber (orders_count r))
                  (x :: rs) record) as Horders.
    pose proof (reduce_sum_snoc (λ r, monthlyNumber (target_value r))
                  (x :: rs) record) as Htarget.
    cbv beta in Hsales, Horders, Htarget.
    cbv zeta. unfold default, id. cbn [from_option MonthlyReports.sales
      MonthlyReports.orders MonthlyReports.target MonthlyReports.records].
    rewrite <- Hsales, <- Horders, <- Htarget. reflexivity.
Qed.

Lemma monthsMap_lookup salesData m :
  MonthlyReports.monthsMap salesData = Some m →
  ∀ key, m !! key = entryOf key salesData.
Proof.
  revert m. induction salesData as [|record salesData IH] using rev_ind;
    intros m Hm key.
  - injection Hm as <-. rewrite lookup_empty. reflexivity.
  - rewrite monthsMap_snoc in Hm.
    destruct (MonthlyReports.monthsMap salesData) as [m0|]; [|discriminate].
    specialize (IH m0 eq_refl). unfold MonthlyReports.addRecord in Hm.
    destruct (MonthlyReports.monthKey record) as [k|] eqn:Hk.
    + destruct (String.eqb k "valueOf"); [discriminate|].
      injection Hm as <-.
      destruct (String.eqb_spec k key) as [->|Hne].
      * rewrite lookup_insert_eq, entryOf_count, IH; [reflexivity|].
        apply inMonth_monthKey, Hk.
      * rewrite lookup_insert_ne by exact Hne.
        rewrite entryOf_skip; [apply IH|].
        unfold inMonth. rewrite Hk. apply String.eqb_neq, Hne.
    + injection Hm as <-. rewrite entryOf_skip; [apply IH|].
      unfold inMonth. rewrite Hk. reflexivity.
Qed.

Lemma monthsMap_throws salesData :
  MonthlyReports.monthsMap salesData = None
  ↔ Exists (λ r, MonthlyReports.monthKey r = Some "valueOf") salesData.
Proof.
  induction salesData as [|record salesData IH] using rev_ind.
  - split; [discriminate|]. intros H. inversion H.
  - rewrite monthsMap_snoc, List.Exists_app.
    destruct (MonthlyReports.monthsMap salesData) as [m0|].
    + unfold MonthlyReports.addRecord.
      destruct (MonthlyReports.monthKey record) as [k|] eqn:Hk.
      * destruct (String.eqb_spec k "valueOf") as [->|Hne].
        -- split; [|reflexivity]. intros _. right. constructor. exact Hk.
        -- split; [discriminate|]. intros [H|H].
           ++ apply IH in H. discriminate.
           ++ apply List.Exists_cons in H. destruct H as [H|H];
                [congruence|inversion H].
      * split; [discriminate|]. intros [H|H].
        -- apply IH in H. discriminate.
        -- apply List.Exists_cons in H. destruct H as [H|H];
             [congruence|inversion H].
    + split; [|reflexivity]. intros _. left. apply IH. reflexivity.
Qed.

(** The grouping loop of the monthly report throws exactly when some record
    is dated under the key [valueOf]; otherwise the entry of every month key
    holds the records counted under that key, in their order in the input,
    and the sums, taken in that order from 0, of their sales, orders and
    targets with a missing field counted as 0; a key under which no record
    is counted has no entry. *)
Theorem monthsMap_groups_by_month salesData :
  (MonthlyReports.monthsMap salesData = None
   ↔ Exists (λ r, MonthlyReports.monthKey r = Some "valueOf") salesData)
  ∧ (∀ m, MonthlyReports.monthsMap salesData = Some m →
       ∀ key, m !! key = entryOf key salesData).
Proof. split; [apply monthsMap_throws|apply monthsMap_lookup]. Qed.

(** The report has no month to show exactly when no record has a date of
    at least seven characters. *)
Theorem monthsMap_empty_iff salesData :
  MonthlyReports.monthsMap salesData = Some ∅
  ↔ Forall (λ r, MonthlyReports.monthKey r = None) salesData.
Proof.
  split.
  - intros Hm. apply List.Forall_forall. intros r Hin.
    destruct (MonthlyReports.monthKey r) as [k|] eqn:Hk; [|reflexivity].
    pose proof (monthsMap_lookup salesData ∅ Hm k) as Hlook.
    rewrite lookup_empty in Hlook. unfold entryOf in Hlook.
    assert (Hmem : In r (List.filter (inMonth k) salesData)).
    { apply filter_In. split; [exact Hin|]. apply inMonth_monthKey, Hk. }
    destruct (List.filter (inMonth k) salesData); [destruct Hmem|discriminate].
  - intros Hall.
    destruct (MonthlyReports.monthsMap salesData) as [m|] eqn:Hm.
    + f_equal. apply map_empty. intros key.
      rewrite (monthsMap_lookup salesData m Hm key). unfold entryOf.
      rewrite filter_none; [reflexivity|]. intros r Hin.
      rewrite List.Forall_forall in Hall. unfold inMonth.
      rewrite (Hall r Hin). reflexivity.
    + apply monthsMap_throws in Hm. apply List.Exists_exists in Hm.
      destruct Hm as (r & Hin & Hk). rewrite List.Forall_forall in Hall.
      rewrite (Hall r Hin) in Hk. discriminate.
Qed.

(** *** From a month card to the dashboard *)

Lemma keepRecord_month_click key record :
  String.length key = 7 →
  keepRecord (handleMonthSelect noFilters key) record = inMonth key record.
Proof.
  intros Hlen. unfold keepRecord, inMonth, MonthlyReports.monthKey.
  destruct (date record) as [d|]; [|reflexivity].
  destruct (String.eqb d ""); [reflexivity|]. cbv zeta.
  change (outsideDateRange (handleMonthSelect noFilters key) d) with false.
  change (outsideBranches (handleMonthSelect noFilters key) record) with false.
  change (outsideChannels (handleMonthSelect noFilters key) record) with false.
  change (outsideDaysOfWeek (handleMonthSelect noFilters key) d) with false.
  unfold outsideMonth; cbn [selectedMonth handleMonthSelect].
  destruct (String.eqb_spec key "") as [->|_]; [discriminate Hlen|].
  pose proof (prefix_correct key d) as Hprefix. rewrite Hlen in Hprefix.
  destruct (String.prefix key d); cbn [negb].
  - rewrite (proj1 Hprefix eq_refl), Hlen.
    change (7 <? 7)%nat with false. cbv iota.
    apply eq_sym, String.eqb_refl.
  - destruct (String.length (substring 0 7 d) <? 7)%nat; [reflexivity|].
    destruct (String.eqb_spec (substring 0 7 d) key) as [Heq|_]; [|reflexivity].
    apply Hprefix in Heq. discriminate.
Qed.



End Monthly.

(** ** Uploading *)

Lemma insertChunks_done fuel insertError records i :
  (length records ≤ i)%nat →
  Hook.insertChunks fuel insertError records i = ([], None).
Proof.
  intros Hi. destruct fuel as [|fuel]; [reflexivity|]. cbn [Hook.insertChunks].
  destruct (Nat.ltb_spec i (length records)); [lia|reflexivity].
Qed.

Lemma chunk_length (records : list SalesRecord) i :
  (i < length records)%nat →
  (1 ≤ length (take Hook.CHUNK_SIZE (drop i records))
   ≤ Hook.CHUNK_SIZE)%nat.
Proof.
  intros Hi. rewrite length_take, length_drop. unfold Hook.CHUNK_SIZE. lia.
Qed.

(** The loop sends consecutive pieces of the records from index [i] on, of
    1 to [CHUNK_SIZE] records each and all full but possibly the last one
    sent, and stops at the first error; without an error it sends every
    record. *)
Lemma insertChunks_spec insertError records fuel i :
  (length records - i ≤ fuel)%nat →
  concat (Hook.insertChunks fuel insertError records i).1
    `prefix_of` drop i records
  ∧ ((Hook.insertChunks fuel insertError records i).2 = None →
     concat (Hook.insertChunks fuel insertError records i).1 = drop i records)
  ∧ Forall (λ chunk, (1 ≤ length chunk ≤ Hook.CHUNK_SIZE)%nat)
      (Hook.insertChunks fuel insertError records i).1.
Proof.
  revert i. induction fuel as [|fuel IH]; intros i Hfuel.
  - cbn. rewrite drop_ge by lia.
    split; [apply prefix_nil|split; [reflexivity|constructor]].
  - cbn [Hook.insertChunks].
    destruct (Nat.ltb_spec i (length records)) as [Hi|Hi].
    + assert (Hsplit : drop i records
                       = (take Hook.CHUNK_SIZE (drop i records)
                          ++ drop (i + Hook.CHUNK_SIZE) records)%list).
      { rewrite <- drop_drop. symmetry. apply take_drop. }
      destruct (insertError i) as [err|].
      * cbn. rewrite app_nil_r. split; [apply prefix_take|]. split.
        -- discriminate.
        -- constructor; [apply chunk_length, Hi|constructor].
      * specialize (IH (i + Hook.CHUNK_SIZE)).
        destruct (Hook.insertChunks fuel insertError records
                    (i + Hook.CHUNK_SIZE)) as [chunks stopped].
        cbn in *. destruct IH as (Hpre & Hall & Hsize);
          [unfold Hook.CHUNK_SIZE; lia|].
        split; [rewrite Hsplit at 2; apply prefix_app, Hpre|]. split.
        -- intros Hnone. rewrite Hsplit at 2. f_equal. apply Hall, Hnone.
        -- constructor; [apply chunk_length, Hi|exact Hsize].
    + cbn. rewrite drop_ge by lia.
      split; [apply prefix_nil|split; [reflexivity|constructor]].
Qed.

Lemma insertChunks_full insertError records fuel i :
  Forall (λ chunk, length chunk = Hook.CHUNK_SIZE)
    (removelast (Hook.insertChunks fuel insertError records i).1).
Proof.
  revert i. induction fuel as [|fuel IH]; intros i; [constructor|].
  cbn [Hook.insertChunks].
  destruct (Nat.ltb_spec i (length records)) as [Hi|Hi]; [|constructor].
  destruct (insertError i) as [err|]; [constructor|].
  specialize (IH (i + Hook.CHUNK_SIZE)).
  destruct (Nat.le_gt_cases (length records) (i + Hook.CHUNK_SIZE))
    as [Hlast|Hmore].
  - rewrite insertChunks_done by exact Hlast. constructor.
  - destruct (Hook.insertChunks fuel insertError records
                (i + Hook.CHUNK_SIZE)) as [[|chunk chunks] stopped];
      [constructor|].
    cbn [fst] in *. change (removelast (?c :: chunk :: chunks))
      with (c :: removelast (chunk :: chunks)).
    constructor; [|exact IH].
    rewrite length_take, length_drop. lia.
Qed.

Lemma sentRecords_app events1 events2 :
  sentRecords (events1 ++ events2)
  = (sentRecords events1 ++ sentRecords events2)%list.
Proof. apply flat_map_app. Qed.

Lemma sentRecords_inserts chunks :
  sentRecords (map Hook.Insert chunks) = concat chunks.
Proof.
  unfold sentRecords. induction chunks as [|chunk chunks IH]; simpl;
    [reflexivity|]. rewrite IH. reflexivity.
Qed.

Lemma sentSizes_app events1 events2 :
  sentSizes (events1 ++ events2)
  = (sentSizes events1 ++ sentSizes events2)%list.
Proof. apply flat_map_app. Qed.

Lemma sentSizes_inserts chunks :
  sentSizes (map Hook.Insert chunks) = map length chunks.
Proof.
  unfold sentSizes. induction chunks as [|chunk chunks IH]; simpl;
    [reflexivity|]. rewrite IH. reflexivity.
Qed.

Lemma fetchData_events response st :
  sentRecords (Hook.fetchData response st).2 = []
  ∧ sentSizes (Hook.fetchData response st).2 = []
  ∧ ¬ In Hook.DeleteAll (Hook.fetchData response st).2
  ∧ In Hook.Select (Hook.fetchData response st).2.
Proof.
  destruct response as [data|err]; cbn;
    (split; [reflexivity|split; [reflexivity|split;
       [intuition discriminate|left; reflexivity]]]).
Qed.

(** Whatever the store answers, the records an upload sends are a prefix of
    the records it was given, in chunks of 1 to 500 records of which all but
    the last one sent hold exactly 500; when it reports success it sent all
    of them. *)
Theorem upload_sends_a_prefix backend records st :
  sentRecords (Hook.uploadData backend records st).1.1 `prefix_of` records
  ∧ Forall (λ n, (1 ≤ n ≤ 500)%nat)
      (sentSizes (Hook.uploadData backend records st).1.1)
  ∧ Forall (λ n, n = 500)
      (removelast (sentSizes (Hook.uploadData backend records st).1.1))
  ∧ ((Hook.uploadData backend records st).2 = true →
     sentRecords (Hook.uploadData backend records st).1.1 = records).
Proof.
  unfold Hook.uploadData, Hook.uploadFailed.
  destruct (Hook.sessionResult backend) as [err|[|]];
    [cbn; repeat split; try discriminate; try constructor;
     apply prefix_nil| |cbn; repeat split; try discriminate; try constructor;
     apply prefix_nil].
  destruct (Hook.deleteError backend) as [err|];
    [cbn; repeat split; try discriminate; try constructor; apply prefix_nil|].
  pose proof (insertChunks_spec (Hook.insertError backend) records
                (length records) 0) as Hspec.
  destruct (Hook.insertChunks (length records) (Hook.insertError backend)
              records 0) as [chunks stopped] eqn:Heqchunks.
  cbn [fst snd] in Hspec. rewrite drop_0 in Hspec.
  destruct Hspec as (Hpre & Hall & Hsize); [lia|].
  assert (Hsizes : Forall (λ n, (1 ≤ n ≤ 500)%nat) (map length chunks)).
  { apply List.Forall_map. exact Hsize. }
  assert (Hfull : Forall (λ n, n = 500) (removelast (map length chunks))).
  { pose proof (insertChunks_full (Hook.insertError backend) records
                  (length records) 0) as Hf.
    rewrite Heqchunks in Hf. cbn [fst] in Hf.
    clear -Hf. induction chunks as [|c [|c' chunks] IH]; [constructor..|].
    change (removelast (map length (c :: c' :: chunks)))
      with (length c :: removelast (map length (c' :: chunks))).
    change (removelast (c :: c' :: chunks))
      with (c :: removelast (c' :: chunks)) in Hf.
    inversion Hf; subst. constructor; [assumption|]. apply IH. assumption. }
  destruct stopped as [err|].
  - cbn [fst snd]. rewrite !sentRecords_app, !sentSizes_app,
      sentRecords_inserts, sentSizes_inserts. cbn. rewrite !app_nil_r.
    repeat split; [exact Hpre|exact Hsizes|exact Hfull|discriminate].
  - pose proof (fetchData_events (Hook.refetch backend) st) as (Hr & Hs & _).
    destruct (Hook.fetchData (Hook.refetch backend) st) as [st' fetched].
    cbn [fst snd] in *. rewrite !sentRecords_app, !sentSizes_app,
      sentRecords_inserts, sentSizes_inserts, Hr, Hs. cbn.
    rewrite !app_nil_r.
    repeat split; [exact Hpre|exact Hsizes|exact Hfull|].
    intros _. apply Hall. reflexivity.
Qed.

Lemma In_inserts (ev : Hook.Event) chunks :
  In ev (map Hook.Insert chunks) → ∃ chunk, ev = Hook.Insert chunk.
Proof.
  intros Hin. apply in_map_iff in Hin. destruct Hin as (chunk & <- & _).
  exists chunk. reflexivity.
Qed.

(** An upload never deletes or inserts without a session, and never inserts
    before it has asked the store to delete every row: a trace with an
    insert starts with the session request and the delete. *)
Theorem upload_deletes_before_inserting backend records st :
  (In Hook.DeleteAll (Hook.uploadData backend records st).1.1 →
   Hook.sessionResult backend = inr true)
  ∧ (∀ chunk,
       In (Hook.Insert chunk) (Hook.uploadData backend records st).1.1 →
       Hook.sessionResult backend = inr true
       ∧ Hook.deleteError backend = None
       ∧ ∃ rest, (Hook.uploadData backend records st).1.1
                 = Hook.GetSession :: Hook.DeleteAll :: rest).
Proof.
  unfold Hook.uploadData, Hook.uploadFailed.
  destruct (Hook.sessionResult backend) as [err|[|]];
    [cbn; split; [intuition discriminate|intros chunk; intuition discriminate]
    | |cbn; split;
       [intuition discriminate|intros chunk; intuition discriminate]].
  split; [reflexivity|].
  destruct (Hook.deleteError backend) as [err|];
    [cbn; intros chunk; intuition discriminate|].
  destruct (Hook.insertChunks (length records) (Hook.insertError backend)
              records 0) as [chunks stopped].
  destruct stopped as [err|];
    [|destruct (Hook.fetchData (Hook.refetch backend) st) as [st' fetched]];
    cbn [fst snd]; intros chunk _; (split; [reflexivity|split; [reflexivity|]]);
    rewrite <- !app_assoc; cbn [app]; eexists; reflexivity.
Qed.

(** An upload that fails leaves the hook's state as it was and does not
    fetch again, also when the delete was already sent; an upload that
    succeeds has sent the delete and ends in the state of a fetch.  The last
    event is the one toast of the upload, destructive exactly on failure. *)
Theorem upload_outcome backend records st :
  ((Hook.uploadData backend records st).2 = false →
   (Hook.uploadData backend records st).1.2 = st
   ∧ ¬ In Hook.Select (Hook.uploadData backend records st).1.1)
  ∧ ((Hook.uploadData backend records st).2 = true →
     (Hook.uploadData backend records st).1.2
     = (Hook.fetchData (Hook.refetch backend) st).1
     ∧ In Hook.DeleteAll (Hook.uploadData backend records st).1.1
     ∧ In Hook.Select (Hook.uploadData backend records st).1.1)
  ∧ ∃ description,
      last (Hook.uploadData backend records st).1.1
      = Some (Hook.Toast
                (if (Hook.uploadData backend records st).2
                 then "Success" else "Upload Error")
                description
                (negb (Hook.uploadData backend records st).2)).
Proof.
  unfold Hook.uploadData, Hook.uploadFailed.
  destruct (Hook.sessionResult backend) as [err|[|]];
    [cbn; repeat split; try discriminate; try (intuition discriminate);
     eexists; reflexivity
    | |cbn; repeat split; try discriminate; try (intuition discriminate);
       eexists; reflexivity].
  destruct (Hook.deleteError backend) as [err|];
    [cbn; repeat split; try discriminate; try (intuition discriminate);
     eexists; reflexivity|].
  destruct (Hook.insertChunks (length records) (Hook.insertError backend)
              records 0) as [chunks stopped].
  destruct stopped as [err|].
  - cbn [fst snd]. split; [|split; [discriminate|]].
    + intros _. split; [reflexivity|]. intros Hin.
      apply in_app_or in Hin. destruct Hin as [Hin|[Hin|[]]]; [|discriminate].
      apply in_app_or in Hin. destruct Hin as [[Hin|[Hin|[]]]|Hin];
        try discriminate.
      apply In_inserts in Hin. destruct Hin as [chunk Hin]. discriminate.
    + rewrite last_snoc. eexists. reflexivity.
  - pose proof (fetchData_events (Hook.refetch backend) st)
      as (_ & _ & _ & Hsel).
    destruct (Hook.fetchData (Hook.refetch backend) st) as [st' fetched].
    cbn [fst snd] in *. split; [discriminate|]. split.
    + intros _. split; [reflexivity|]. split.
      * apply in_or_app. left. right. left. reflexivity.
      * apply in_or_app. right. apply in_or_app. left. exact Hsel.
    + rewrite !app_assoc, last_snoc. eexists. reflexivity.
Qed.

(** Uploading no records is not refused: with a session and a delete that
    succeeds, every row of the store is deleted, nothing is inserted, the
    hook fetches again and the upload reports the success of 0 records. *)
Theorem upload_of_nothing_deletes_everything backend st :
  Hook.sessionResult backend = inr true →
  Hook.deleteError backend = None →
  Hook.uploadData backend [] st
  = ([Hook.GetSession; Hook.DeleteAll]
       ++ (Hook.fetchData (Hook.refetch backend) st).2
       ++ [Hook.Toast "Success" "Uploaded 0 records successfully" false],
     (Hook.fetchData (Hook.refetch backend) st).1, true)%list.
Proof.
  intros Hsession Hdelete. unfold Hook.uploadData.
  rewrite Hsession, Hdelete. cbn [length Hook.insertChunks map app].
  destruct (Hook.fetchData (Hook.refetch backend) st) as [st' fetched].
  reflexivity.
Qed.

(** ** Fetching *)

Lemma afterFetches_snoc responses response st :
  afterFetches (responses ++ [response]) st
  = (Hook.fetchData response (afterFetches responses st)).1.
Proof. unfold afterFetches. rewrite fold_left_app. reflexivity. Qed.

(** After any run of fetches the hook is not loading; its records are the
    rows of the last answer that was not an error (none for a null answer),
    or the records it started with when every answer was an error; and its
    error is the message of the last answer when that was an error, and
    cleared when it was not. *)
Theorem fetches_keep_last_rows responses response st :
  Hook.isLoading (afterFetches (responses ++ [response]) st) = false
  ∧ Hook.salesData (afterFetches (responses ++ [response]) st)
    = default (Hook.salesData st) (lastRows (responses ++ [response]))
  ∧ Hook.error (afterFetches (responses ++ [response]) st)
    = match response with
      | Hook.FetchRows _ => None
      | Hook.FetchError err => Some (Hook.fetchErrorMessage err)
      end.
Proof.
  assert (Hrows : ∀ rs, Hook.salesData (afterFetches rs st)
                        = default (Hook.salesData st) (lastRows rs)).
  { induction rs as [|r rs IH] using rev_ind; [reflexivity|].
    rewrite afterFetches_snoc. unfold lastRows in *.
    rewrite flat_map_app. cbn [flat_map]. rewrite app_nil_r.
    destruct r as [data|err]; cbn.
    - rewrite last_snoc. reflexivity.
    - rewrite app_nil_r. exact IH. }
  split; [|split; [apply Hrows|]];
    rewrite afterFetches_snoc; destruct response; reflexivity.
Qed.

(** ** The current month *)

Lemma getCurrentMonth_checked :
  forallb
    (λ y, forallb
            (λ m, readsAsMonth (UseTargets.getCurrentMonth y m) y m)
            (seqZ 0 12))
    (seqZ 1000 9000) = true.
Proof. vm_compute. reflexivity. Qed.

Lemma substring_append (a b : string) :
  substring 0 (String.length a) (a +:+ b) = a.
Proof.
  induction a as [|c a IH]; simpl.
  - destruct b; reflexivity.
  - rewrite IH. reflexivity.
Qed.

Lemma readsAsMonth_length s fullYear monthIndex :
  readsAsMonth s fullYear monthIndex = true → String.length s = 7.
Proof.
  unfold readsAsMonth. intros H.
  apply andb_prop in H. destruct H as [H _].
  apply andb_prop in H. destruct H as [H _].
  apply Nat.eqb_eq, H.
Qed.

Section CurrentMonth.

Context {host : Host}.

(** For a year of four digits, the current month is written as the year, a
    hyphen and the two-digit month, and reads back as such.  A record whose
    date begins with it is counted under it by the monthly report and kept
    by the dashboard when that month is selected. *)
Theorem getCurrentMonth_is_a_month_key fullYear monthIndex rest like :
  (1000 ≤ fullYear ≤ 9999)%Z →
  (0 ≤ monthIndex ≤ 11)%Z →
  readsAsMonth (UseTargets.getCurrentMonth fullYear monthIndex)
    fullYear monthIndex = true
  ∧ MonthlyReports.monthKey
      (datedRecord (UseTargets.getCurrentMonth fullYear monthIndex +:+ rest)
         like)
    = Some (UseTargets.getCurrentMonth fullYear monthIndex)
  ∧ keepRecord
      (handleMonthSelect noFilters
         (UseTargets.getCurrentMonth fullYear monthIndex))
      (datedRecord (UseTargets.getCurrentMonth fullYear monthIndex +:+ rest)
         like)
    = true.
Proof.
  intros Hyear Hmonth.
  assert (Hreads : readsAsMonth (UseTargets.getCurrentMonth fullYear monthIndex)
                     fullYear monthIndex = true).
  { pose proof getCurrentMonth_checked as Hall.
    rewrite forallb_forall in Hall.
    specialize (Hall fullYear). rewrite forallb_forall in Hall.
    apply Hall; apply list_elem_of_In, elem_of_seqZ; lia. }
  pose proof (readsAsMonth_length _ _ _ Hreads) as Hlen.
  set (key := UseTargets.getCurrentMonth fullYear monthIndex) in *.
  assert (Hkey : MonthlyReports.monthKey (datedRecord (key +:+ rest) like)
                 = Some key).
  { unfold MonthlyReports.monthKey, datedRecord. cbn [date].
    destruct (String.eqb_spec (key +:+ rest) "") as [Hempty|_].
    - destruct key; [discriminate Hlen|discriminate Hempty].
    - pose proof (substring_append key rest) as Hsub. rewrite Hlen in Hsub.
      cbv zeta. rewrite Hsub, Hlen. reflexivity. }
  split; [exact Hreads|]. split; [exact Hkey|].
  rewrite keepRecord_month_click by exact Hlen.
  apply inMonth_monthKey, Hkey.
Qed.

End CurrentMonth.

(** ** The administrator test *)

Lemma lowerAscii_idempotent (c : ascii) :
  IsAdmin.lowerAscii (IsAdmin.lowerAscii c) = IsAdmin.lowerAscii c.
Proof. destruct c as [[] [] [] [] [] [] [] []]; reflexivity. Qed.

Lemma toLowerCase_idempotent (s : string) :
  IsAdmin.toLowerCase (IsAdmin.toLowerCase s) = IsAdmin.toLowerCase s.
Proof.
  induction s as [|c s IH]; simpl; [reflexivity|].
  rewrite lowerAscii_idempotent, IH. reflexivity.
Qed.

Lemma toLowerCase_length (s : string) :
  String.length (IsAdmin.toLowerCase s) = String.length s.
Proof.
  induction s as [|c s IH]; simpl; [reflexivity|]. rewrite IH. reflexivity.
Qed.

Lemma toLowerCase_empty (s : string) :
  String.eqb (IsAdmin.toLowerCase s) "" = String.eqb s "".
Proof. destruct s; reflexivity. Qed.

(** The administrator test looks at the email up to the case of its letters:
    it holds exactly of the emails that lower-case to the administrator's
    address, which have its sixteen characters, it gives the same answer
    for an email and for its lower-case form, and an absent or empty email
    is no administrator. *)
Theorem isAdmin_up_to_letter_case userEmail :
  (IsAdmin.isAdmin userEmail = true
   ↔ ∃ email, userEmail = Some email
              ∧ IsAdmin.toLowerCase email = "admin@cstore.com"
              ∧ String.length email = 16)
  ∧ (∀ email,
       IsAdmin.isAdmin (Some (IsAdmin.toLowerCase email))
       = IsAdmin.isAdmin (Some email))
  ∧ IsAdmin.isAdmin None = false
  ∧ IsAdmin.isAdmin (Some "") = false.
Proof.
  split; [|split; [|split; reflexivity]].
  - split.
    + destruct userEmail as [email|]; [|discriminate]. unfold IsAdmin.isAdmin.
      destruct (String.eqb email ""); [discriminate|].
      intros H. apply String.eqb_eq in H. exists email.
      split; [reflexivity|]. split; [exact H|].
      rewrite <- toLowerCase_length, H. reflexivity.
    + intros (email & -> & H & _). unfold IsAdmin.isAdmin.
      destruct (String.eqb_spec email "") as [->|_]; [discriminate H|].
      rewrite H. reflexivity.
  - intros email. unfold IsAdmin.isAdmin.
    rewrite toLowerCase_empty, toLowerCase_idempotent. reflexivity.
Qed.

(** ** More of the filter *)

Section Filter.

Context {host : Host}.

(** Filtering by two states gives the same records in either order, and
    filtering twice by one state is filtering once. *)
Theorem filters_commute salesData filters1 filters2 :
  filteredData (filteredData salesData filters1) filters2
  = filteredData (filteredData salesData filters2) filters1
  ∧ filteredData (filteredData salesData filters1) filters1
    = filteredData salesData filters1.
Proof.
  unfold filteredData. rewrite !filter_filter_andb. split.
  - apply List.filter_ext. intros record. apply andb_comm.
  - apply List.filter_ext. intros record. apply andb_diag.
Qed.

Lemma keepRecord_inactive filters record :
  inactive filters = true → keepRecord filters record = hasDate record.
Proof.
  unfold inactive. intros H.
  apply andb_prop in H. destruct H as [H Hdays].
  apply andb_prop in H. destruct H as [H Hchannels].
  apply andb_prop in H. destruct H as [H Hbranches].
  apply andb_prop in H. destruct H as [Hrange Hmonth].
  unfold keepRecord, hasDate. destruct (date record) as [d|]; [|reflexivity].
  destruct (String.eqb d ""); [reflexivity|].
  unfold outsideDateRange, outsideMonth, outsideBranches, outsideChannels,
    outsideDaysOfWeek.
  apply Nat.eqb_eq in Hdays, Hchannels, Hbranches.
  rewrite Hdays, Hchannels, Hbranches.
  destruct (dateRange filters) as [[[start|] end_]|]; try discriminate;
    destruct (selectedMonth filters) as [month|]; cbn in *;
    try rewrite Hmonth; reflexivity.
Qed.

(** A filter state with nothing switched on (no range start, no month or the
    empty month, empty sets) keeps every record that has a date and drops
    only the records without one. *)
Theorem inactive_filters_keep_dated_records salesData filters :
  inactive filters = true →
  filteredData salesData filters = List.filter hasDate salesData.
Proof.
  intros Hoff. unfold filteredData. apply List.filter_ext.
  intros record. apply keepRecord_inactive, Hoff.
Qed.

(** *** One more record *)

Lemma channelMetrics_snoc_other branchData record channel :
  channel_name record ≠ channel →
  channelMetrics (branchData ++ [record]) channel
  = channelMetrics branchData channel.
Proof.
  intros Hne. apply channelMetrics_channelData.
  rewrite List.filter_app. cbn [List.filter].
  rewrite (proj2 (String.eqb_neq _ _) Hne). apply app_nil_r.
Qed.

(** A record added at the end of the input counts for its own branch and
    channel only: every other branch entry and every other channel entry of
    its branch stay as they were, and the sales, orders and target of its
    own channel are the former sums plus its coerced fields. *)
Theorem one_more_record data record targetsMap :
  (∀ branch, branch ≠ branch_name record →
     branchMetric (data ++ [record]) targetsMap branch
     = branchMetric data targetsMap branch)
  ∧ (∀ channel, channel ≠ channel_name record →
       ∀ branchData,
         channelMetrics (branchData ++ [record]) channel
         = channelMetrics branchData channel)
  ∧ (∀ branchData,
       ChannelMetrics.sales
         (channelMetrics (branchData ++ [record]) (channel_name record))
       = (ChannelMetrics.sales
            (channelMetrics branchData (channel_name record))
          + Number (sales_value record))%float
       ∧ ChannelMetrics.orders
           (channelMetrics (branchData ++ [record]) (channel_name record))
         = (ChannelMetrics.orders
              (channelMetrics branchData (channel_name record))
            + Number (orders_count record))%float
       ∧ ChannelMetrics.target
           (channelMetrics (branchData ++ [record]) (channel_name record))
         = (ChannelMetrics.target
              (channelMetrics branchData (channel_name record))
            + Number (target_value record))%float).
Proof.
  split; [|split].
  - intros branch Hne. apply branchMetric_branchData.
    rewrite List.filter_app. cbn [List.filter].
    rewrite (proj2 (String.eqb_neq _ _) (not_eq_sym Hne)). apply app_nil_r.
  - intros channel Hne branchData.
    apply channelMetrics_snoc_other, not_eq_sym, Hne.
  - intros branchData. unfold channelMetrics; cbv zeta.
    cbn [ChannelMetrics.sales ChannelMetrics.orders ChannelMetrics.target].
    rewrite List.filter_app. cbn [List.filter]. rewrite String.eqb_refl.
    rewrite !reduce_sum_snoc. repeat split; reflexivity.
Qed.

End Filter.

(** ** Witnesses for the rest *)

(** The scenario filtered down to branch A: the summary lists A and B, and
    its entry for B is zeroed. *)
Lemma unselected_branches_are_zeroed_witness :
  branches Sample.onlyBranchA ≠ []
  ∧ map BranchMetrics.branchName
      (DashboardSummary.branchMetrics
         (Sample.calculateMetrics
            (Sample.filteredData [Sample.r1; Sample.r2] Sample.onlyBranchA)
            ∅))
    = ["A"; "B"]
  ∧ Forall
      (λ b, BranchMetrics.branchName b = "B" →
            zeroedBranch (host := Sample.host) ∅ b)
      (DashboardSummary.branchMetrics
         (Sample.calculateMetrics
            (Sample.filteredData [Sample.r1; Sample.r2] Sample.onlyBranchA)
            ∅)).
Proof.
  assert (Hactive : branches Sample.onlyBranchA ≠ []) by discriminate.
  split; [exact Hactive|].
  destruct (unselected_branches_are_zeroed (host := Sample.host)
              [Sample.r1; Sample.r2] Sample.onlyBranchA ∅ Hactive)
    as [Hnames Hall].
  split; [exact Hnames|].
  eapply List.Forall_impl; [|exact Hall].
  intros b Hzero Hname. apply Hzero. rewrite Hname. reflexivity.
Defined.

(** The scenario filtered down to channel X: every branch of the summary
    lists X and Y, and its entry for Y is zeroed. *)
Lemma unselected_channels_are_zeroed_witness :
  channels Demo.onlyChannelX ≠ []
  ∧ Forall
      (λ b,
         map ChannelMetrics.channelName (BranchMetrics.channels b)
         = ["X"; "Y"]
         ∧ Forall
             (λ c, ChannelMetrics.channelName c = "Y" → zeroedChannel c)
             (BranchMetrics.channels b))
      (DashboardSummary.branchMetrics
         (Sample.calculateMetrics
            (Sample.filteredData [Sample.r1; Sample.r2] Demo.onlyChannelX)
            ∅)).
Proof.
  assert (Hactive : channels Demo.onlyChannelX ≠ []) by discriminate.
  split; [exact Hactive|].
  destruct (unselected_channels_are_zeroed (host := Sample.host)
              [Sample.r1; Sample.r2] Demo.onlyChannelX ∅ Hactive)
    as [_ Hall].
  eapply List.Forall_impl; [|exact Hall].
  intros b [Hnames Hchannels]. split; [exact Hnames|].
  eapply List.Forall_impl; [|exact Hchannels].
  intros c Hzero Hname. apply Hzero. rewrite Hname. reflexivity.
Defined.

(** The scenario with an override of 0 for branch A. *)
Lemma nonpositive_override_zeroes_achievement_witness :
  Demo.zeroA !! "A" = Some 0%float
  ∧ Js.gt0 0 = false
  ∧ BranchMetrics.achievementPercentage
      (Sample.branchMetric [Sample.r1; Sample.r2] Demo.zeroA "A") = 0%float.
Proof.
  assert (Hov : Demo.zeroA !! "A" = Some 0%float) by reflexivity.
  split; [exact Hov|]. split; [reflexivity|].
  pose proof (nonpositive_override_zeroes_achievement (host := Sample.host)
                [Sample.r1; Sample.r2] Demo.zeroA) as Hall.
  apply List.Forall_inv in Hall.
  apply (Hall 0%float Hov eq_refl).
Defined.

(** The scenario under the default targets of March 2024. *)
Lemma default_targets_zero_every_achievement_witness :
  ¬ In "__proto__" Sample.BRANCHES
  ∧ DashboardSummary.overallAchievement
      (Sample.calculateMetrics [Sample.r1; Sample.r2]
         (targetsMapOf
            (UseTargets.upsertData
               (UseTargets.defaultTargets (host := Sample.host)) "2024-03")))
    = 0%float.
Proof.
  assert (Hproto : ¬ In "__proto__" Sample.BRANCHES).
  { intros [H|[H|[]]]; discriminate. }
  split; [exact Hproto|].
  apply (default_targets_zero_every_achievement (host := Sample.host)
           [Sample.r1; Sample.r2] "2024-03" Hproto).
Defined.

(** The page of branch B when the only record is of branch A. *)
Lemma branch_page_finds_enumerated_branches_witness :
  [Sample.r1] ≠ []
  ∧ BranchDetail.branchData (Sample.summary [Sample.r1] noFilters ∅) "B"
    = Some (Sample.branchMetric (Sample.filteredData [Sample.r1] noFilters)
              ∅ "B").
Proof.
  assert (Hraw : [Sample.r1] ≠ []) by discriminate.
  split; [exact Hraw|].
  apply (proj1 (branch_page_finds_enumerated_branches (host := Sample.host)
                  [Sample.r1] noFilters ∅ "B") Hraw).
Defined.

(** The monthly report of the scenario and a record without a date. *)
Lemma monthsMap_groups_by_month_witness :
  match Demo.months with
  | Some m =>
      m !! "2024-03"
      = entryOf (host := Sample.host) "2024-03"
          [Sample.r1; Sample.r_nodate; Sample.r2]
  | None => False
  end.
Proof.
  destruct Demo.months as [m|] eqn:Hm.
  - apply (proj2 (monthsMap_groups_by_month (host := Sample.host)
                    [Sample.r1; Sample.r_nodate; Sample.r2]) m Hm).
  - vm_compute in Hm. discriminate Hm.
Defined.


(** An upload of the scenario to a store that accepts everything. *)
Lemma upload_sends_a_prefix_witness :
  (Hook.uploadData Demo.backendOk [Sample.r1; Sample.r2] Demo.st0).2 = true
  ∧ sentRecords
      (Hook.uploadData Demo.backendOk [Sample.r1; Sample.r2] Demo.st0).1.1
    = [Sample.r1; Sample.r2].
Proof.
  assert (Hok : (Hook.uploadData Demo.backendOk [Sample.r1; Sample.r2]
                   Demo.st0).2 = true) by reflexivity.
  split; [exact Hok|].
  apply (upload_sends_a_prefix Demo.backendOk [Sample.r1; Sample.r2] Demo.st0).
  exact Hok.
Defined.

(** An upload of no records to a store that accepts everything. *)
Lemma upload_of_nothing_deletes_everything_witness :
  Hook.sessionResult Demo.backendOk = inr true
  ∧ Hook.deleteError Demo.backendOk = None
  ∧ In Hook.DeleteAll (Hook.uploadData Demo.backendOk [] Demo.st0).1.1
  ∧ (Hook.uploadData Demo.backendOk [] Demo.st0).2 = true.
Proof.
  split; [reflexivity|]. split; [reflexivity|].
  rewrite (upload_of_nothing_deletes_everything Demo.backendOk Demo.st0
             eq_refl eq_refl).
  split; [right; left; reflexivity|reflexivity].
Defined.

(** March 2024. *)
Lemma getCurrentMonth_is_a_month_key_witness :
  (1000 ≤ 2024 ≤ 9999)%Z
  ∧ (0 ≤ 2 ≤ 11)%Z
  ∧ readsAsMonth (UseTargets.getCurrentMonth 2024 2) 2024 2 = true.
Proof.
  assert (Hyear : (1000 ≤ 2024 ≤ 9999)%Z) by lia.
  assert (Hmonth : (0 ≤ 2 ≤ 11)%Z) by lia.
  split; [exact Hyear|]. split; [exact Hmonth|].
  apply (getCurrentMonth_is_a_month_key (host := Sample.host) 2024 2 ""
           Sample.r1 Hyear Hmonth).
Defined.

(** A filter state with the empty month and nothing else. *)
Lemma inactive_filters_keep_dated_records_witness :
  inactive (mkFilters None (Some "") [] [] []) = true
  ∧ Sample.filteredData [Sample.r1; Sample.r_nodate; Sample.r_garbage]
      (mkFilters None (Some "") [] [] [])
    = [Sample.r1; Sample.r_garbage].
Proof.
  split; [reflexivity|]. unfold Sample.filteredData.
  rewrite (inactive_filters_keep_dated_records (host := Sample.host)
             [Sample.r1; Sample.r_nodate; Sample.r_garbage]
             (mkFilters None (Some "") [] [] []) eq_refl).
  reflexivity.
Defined.
